(** * ZKTeco fleet synchronisation: a shallow embedding of [zkteco_all.py]
      and [simple.py]

    The development follows the two scripts of the repository:

    - Python values, exceptions and the coercions [int()], [str()],
      [str.strip()] the scripts apply to device records;
    - the SQLite store behind [sqlite3]: two tables with their UNIQUE
      constraints, statements, connections with and without implicit
      transactions, [executemany];
    - [save_attendance_to_db], [save_users_to_db], the name index built from
      the users of a device, the two fleet loops [sync_all_devices_users] and
      [sync_all_devices_attendance], and [live_capture_interactive];
    - from [simple.py]: the privilege label of [collect_user_rows] and the
      session handling of [fetch_device_snapshot].

    Definitions come first, theorems after them. *)

From Stdlib Require Import ZArith String Ascii List Bool Lia.
From stdpp Require Import base option list gmap strings pretty.

Local Open Scope string_scope.
Local Open Scope list_scope.

(* ===================================================================== *)
(** * 1. Python values, exceptions, coercions                             *)
(* ===================================================================== *)

Module Py.

(** The values a raw device record carries in its attributes.  pyzk unpacks
    integers and byte strings from the wire, so an attribute is [None], an
    [int] or a [str]; a [datetime] is represented by the [str] it renders
    to, which is all the scripts ever do with it. *)
Inductive pyval : Type :=
  | PNone
  | PInt (z : Z)
  | PStr (s : string).

(** The exceptions that occur in the modelled code. *)
Inductive pyexn : Type :=
  | ValueError
  | TypeError
  | OverflowError
  | ZKNetworkError (msg : string)
  | ZKErrorResponse (msg : string).

(** A Python computation either returns or raises. *)
Inductive result (A : Type) : Type :=
  | Ok (a : A)
  | Raise (e : pyexn).
Arguments Ok {A} a.
Arguments Raise {A} e.

#[global] Instance pyval_eq_dec : EqDecision pyval.
Proof. solve_decision. Defined.

#[global] Instance pyexn_eq_dec : EqDecision pyexn.
Proof. solve_decision. Defined.

Definition pyval_code (v : pyval) : unit + (Z + string) :=
  match v with
  | PNone => inl tt
  | PInt z => inr (inl z)
  | PStr s => inr (inr s)
  end.

Definition pyval_decode (c : unit + (Z + string)) : pyval :=
  match c with
  | inl _ => PNone
  | inr (inl z) => PInt z
  | inr (inr s) => PStr s
  end.

(** Dictionary keys: [None], ints and strs hash and compare by value, and
    values of different types are different keys. *)
#[global] Instance pyval_countable : Countable pyval.
Proof. apply (inj_countable' pyval_code pyval_decode). by intros []. Defined.

(** Truth value of an object, as [if x:], [x or y] and [not x] test it. *)
Definition truthy (v : pyval) : bool :=
  match v with
  | PNone => false
  | PInt z => negb (z =? 0)%Z
  | PStr s => negb (String.eqb s "")
  end.

(** [str(x)]. *)
Definition str (v : pyval) : string :=
  match v with
  | PNone => "None"
  | PInt z => pretty z
  | PStr s => s
  end.

(** [s or ""] for an attribute that is a [str] or [None]. *)
Definition or_empty (o : option string) : string :=
  match o with
  | Some s => s
  | None => ""
  end.

(** [a or b] on strings: the first operand unless it is empty. *)
Definition str_or (a b : string) : string :=
  if String.eqb a "" then b else a.

(** [str.isspace] on the characters below 256: TAB..CR, FS..US, space,
    NEL (133) and NBSP (160). *)
Definition is_space (c : ascii) : bool :=
  let n := N_of_ascii c in
  ((9 <=? n) && (n <=? 13) || (28 <=? n) && (n <=? 32)
   || (n =? 133) || (n =? 160))%N.

Fixpoint lstrip (s : string) : string :=
  match s with
  | EmptyString => EmptyString
  | String c s' => if is_space c then lstrip s' else s
  end.

Fixpoint rstrip (s : string) : string :=
  match s with
  | EmptyString => EmptyString
  | String c s' =>
      match rstrip s' with
      | EmptyString => if is_space c then EmptyString else String c EmptyString
      | t => String c t
      end
  end.

(** [s.strip()]. *)
Definition strip (s : string) : string := lstrip (rstrip s).

Definition is_digit (c : ascii) : bool :=
  let n := N_of_ascii c in ((48 <=? n) && (n <=? 57))%N.

Definition digit_value (c : ascii) : Z := Z.of_N (N_of_ascii c) - 48.

(** The digits of a decimal literal: groups of digits separated by single
    underscores.  [after_digit] tells whether the previous character was a
    digit, the only place where an underscore or the end may stand. *)
Fixpoint parse_digits (acc : Z) (after_digit : bool) (s : string) : option Z :=
  match s with
  | EmptyString => if after_digit then Some acc else None
  | String c s' =>
      if is_digit c then parse_digits (10 * acc + digit_value c) true s'
      else if Ascii.eqb c "_" && after_digit then parse_digits acc false s'
      else None
  end.

(** [int(s)] for a [str]: surrounding whitespace, an optional sign, decimal
    digits. *)
Definition parse_int (s : string) : option Z :=
  match strip s with
  | String "-" t => Z.opp <$> parse_digits 0 false t
  | String "+" t => parse_digits 0 false t
  | t => parse_digits 0 false t
  end.

(** [int(x)]. *)
Definition int (v : pyval) : result Z :=
  match v with
  | PNone => Raise TypeError
  | PInt z => Ok z
  | PStr s =>
      match parse_int s with
      | Some z => Ok z
      | None => Raise ValueError
      end
  end.

(** [try: x = int(v)  except (ValueError, TypeError): x = 0]; any other
    exception propagates. *)
Definition int_or_zero (v : pyval) : result Z :=
  match int v with
  | Ok z => Ok z
  | Raise ValueError | Raise TypeError => Ok 0%Z
  | Raise e => Raise e
  end.

(** [getattr(obj, name, default)] for an attribute that may be absent. *)
Definition getattr (attr : option pyval) (dflt : pyval) : pyval :=
  match attr with
  | Some v => v
  | None => dflt
  end.

(** [hasattr(obj, name)]. *)
Definition hasattr (attr : option pyval) : bool :=
  match attr with
  | Some _ => true
  | None => false
  end.

End Py.
Import Py.

#[global] Instance result_ret : MRet result := fun _ a => Ok a.
#[global] Instance result_bind : MBind result := fun _ _ f r =>
  match r with
  | Ok a => f a
  | Raise e => Raise e
  end.

(** pyzk's [const] module, as far as the scripts use it.  [simple.py] writes
    the same numbers literally when it creates a user ([14] for an
    administrator, [0] otherwise). *)
Module const.
Definition USER_DEFAULT : Z := 0.
Definition USER_ADMIN : Z := 14.
End const.

(* ===================================================================== *)
(** * 2. Records delivered by the devices                                 *)
(* ===================================================================== *)

(** A raw attendance record.  [save_attendance_to_db] probes every
    attribute with [hasattr] / [getattr], so each may be absent ([None] of
    the option) or hold any value. *)
Record attendance : Type := {
  att_uid : option pyval;
  att_user_id : option pyval;
  att_timestamp : option pyval;
  att_status : option pyval;
  att_punch : option pyval
}.

(** A user as pyzk's [User] class carries it: [uid] and [privilege] are
    ints; [name], [password], [group_id], [user_id] are strs, which the
    scripts guard against [None] with [x or ""]; [card] is the one attribute
    the scripts probe with [hasattr], so it may be absent. *)
Record user : Type := {
  user_uid : Z;
  user_name : option string;
  user_privilege : Z;
  user_password : option string;
  user_group_id : option string;
  user_user_id : option string;
  user_card : option pyval
}.

(** An entry of [devices.json], by the keys the scripts read:
    [device.get('ip')] and [device.get('name', 'N/A')] in [zkteco_all.py],
    [device_entry.get('ip') or device_entry.get('address')] in
    [simple.py]. *)
Record device : Type := {
  dev_ip : option string;
  dev_name : option string;
  dev_address : option string
}.

(* ===================================================================== *)
(** * 3. The SQLite store                                                 *)
(* ===================================================================== *)

Module Sqlite.

(** A row of table [attendance], by the seven columns the INSERT names
    ([id] and [imported_at] are filled in by the store and never read). *)
Record att_row : Type := {
  ar_device_ip : string;
  ar_uid : Z;
  ar_user_id : string;
  ar_name : string;
  ar_timestamp : string;
  ar_status : Z;
  ar_punch : Z
}.

(** A row of table [users], by the eight columns the INSERT names. *)
Record user_row : Type := {
  ur_device_ip : string;
  ur_uid : Z;
  ur_name : string;
  ur_privilege : string;
  ur_password : string;
  ur_group_id : string;
  ur_user_id : string;
  ur_card : string
}.

#[global] Instance att_row_eq_dec : EqDecision att_row.
Proof. solve_decision. Defined.

#[global] Instance user_row_eq_dec : EqDecision user_row.
Proof. solve_decision. Defined.

(** [UNIQUE(device_ip, user_id, timestamp)].  Timestamps are rendered
    datetimes, text that the column's affinity stores unchanged. *)
Definition att_key (r : att_row) : string * string * string :=
  (ar_device_ip r, ar_user_id r, ar_timestamp r).

(** [UNIQUE(device_ip, uid)]. *)
Definition user_key (r : user_row) : string * Z :=
  (ur_device_ip r, ur_uid r).

(** The database file: both tables, rows in rowid order.  [init_database]
    creates them empty if they do not exist and never drops them. *)
Record database : Type := {
  db_attendance : list att_row;
  db_users : list user_row
}.

Definition empty_database : database :=
  {| db_attendance := []; db_users := [] |}.

(** [INSERT OR IGNORE INTO attendance]: a row whose key is taken is
    skipped, any other row is appended. *)
Definition insert_or_ignore (r : att_row) (t : list att_row) : list att_row :=
  if bool_decide (att_key r ∈ att_key <$> t) then t else t ++ [r].

(** [INSERT OR REPLACE INTO users]: the rows that hold the key are deleted,
    then the row is appended. *)
Definition insert_or_replace (r : user_row) (t : list user_row) : list user_row :=
  filter (λ r', user_key r' ≠ user_key r) t ++ [r].

(** One statement with its bound parameters. *)
Inductive statement : Type :=
  | InsertOrIgnoreAttendance (r : att_row)
  | InsertOrReplaceUser (r : user_row).

Definition exec_statement (s : statement) (db : database) : database :=
  match s with
  | InsertOrIgnoreAttendance r =>
      {| db_attendance := insert_or_ignore r (db_attendance db);
         db_users := db_users db |}
  | InsertOrReplaceUser r =>
      {| db_attendance := db_attendance db;
         db_users := insert_or_replace r (db_users db) |}
  end.

(** sqlite3 binds a Python int as a 64-bit signed integer and raises
    [OverflowError] ("Python int too large to convert to SQLite INTEGER")
    for any other; strs always bind. *)
Definition fits_int64 (z : Z) : bool :=
  ((- 2 ^ 63 <=? z) && (z <? 2 ^ 63))%Z.

Definition bindable (s : statement) : bool :=
  match s with
  | InsertOrIgnoreAttendance r =>
      fits_int64 (ar_uid r) && fits_int64 (ar_status r) && fits_int64 (ar_punch r)
  | InsertOrReplaceUser r => fits_int64 (ur_uid r)
  end.

(** A connection.  [conn_committed] is the file as any later connection
    will find it; [conn_working] is what this connection sees, ahead of the
    file while a transaction is open.  [conn_autocommit] is set by
    [isolation_level = None]; otherwise sqlite3 opens a transaction before
    the first INSERT and keeps it open until [commit()].  [conn_calls] logs
    the parameter sequences handed to [executemany], in call order. *)
Record connection : Type := {
  conn_committed : database;
  conn_working : database;
  conn_autocommit : bool;
  conn_calls : list (list statement)
}.

(** [sqlite3.connect(db_file)]. *)
Definition connect (db : database) : connection :=
  {| conn_committed := db; conn_working := db;
     conn_autocommit := false; conn_calls := [] |}.

(** [db_conn.isolation_level = None]. *)
Definition set_isolation_level_None (c : connection) : connection :=
  {| conn_committed := conn_committed c; conn_working := conn_working c;
     conn_autocommit := true; conn_calls := conn_calls c |}.

(** One statement executed on the connection. *)
Definition execute (s : statement) (c : connection) : connection :=
  let w := exec_statement s (conn_working c) in
  {| conn_committed := if conn_autocommit c then w else conn_committed c;
     conn_working := w;
     conn_autocommit := conn_autocommit c;
     conn_calls := conn_calls c |}.

(** The statements of one [executemany], in order: a parameter tuple that
    does not bind raises and ends the call, the rows before it stay
    executed. *)
Fixpoint run_statements (ss : list statement) (c : connection)
  : result unit * connection :=
  match ss with
  | [] => (Ok tt, c)
  | s :: ss' =>
      if bindable s then run_statements ss' (execute s c)
      else (Raise OverflowError, c)
  end.

(** [cursor.executemany(sql, batch)]. *)
Definition executemany (ss : list statement) (c : connection)
  : result unit * connection :=
  let c' := {| conn_committed := conn_committed c;
               conn_working := conn_working c;
               conn_autocommit := conn_autocommit c;
               conn_calls := conn_calls c ++ [ss] |} in
  run_statements ss c'.

(** [db_conn.commit()]. *)
Definition commit (c : connection) : connection :=
  {| conn_committed := conn_working c; conn_working := conn_working c;
     conn_autocommit := conn_autocommit c; conn_calls := conn_calls c |}.

(** The file once the connection is closed or dropped: an open transaction
    is rolled back. *)
Definition close (c : connection) : database := conn_committed c.

End Sqlite.
Import Sqlite.

(* ===================================================================== *)
(** * 4. [zkteco_all.py]: persistence                                     *)
(* ===================================================================== *)

(** The name index [users_dict]: keys are [str(user.uid)] and
    [user.user_id] as it stands (a str, or the key [None]), values are
    [user.name or ""]. *)
Definition user_id_key (u : user) : pyval :=
  match user_user_id u with
  | Some s => PStr s
  | None => PNone
  end.

(** [users_dict[str(user.uid)] = user.name or ""]
    [users_dict[user.user_id] = user.name or ""] *)
Definition index_user (d : gmap pyval string) (u : user) : gmap pyval string :=
  <[user_id_key u := or_empty (user_name u)]>
    (<[PStr (pretty (user_uid u)) := or_empty (user_name u)]> d).

(** [users_dict = {}; for user in users: ...], as written in
    [sync_all_devices_attendance], [get_attendance_interactive] and
    [live_capture_interactive]. *)
Definition build_users_dict (users : list user) : gmap pyval string :=
  foldl index_user ∅ users.

(** [d.get(key, "")] for a str key. *)
Definition dict_get (d : gmap pyval string) (key : string) : string :=
  default "" (d !! PStr key).

(** [users_dict.get(uid_key, "") or users_dict.get(user_id, "")]. *)
Definition resolve_name (d : gmap pyval string) (uid_key user_id : string) : string :=
  str_or (dict_get d uid_key) (dict_get d user_id).

(** The running state of [save_attendance_to_db]: the connection, the
    pending [batch] and the three counters. *)
Record sa_state : Type := {
  sa_conn : connection;
  sa_batch : list att_row;
  sa_inserted : nat;
  sa_errors : nat;
  sa_skipped : nat
}.

(** What the function prints when it completes. *)
Record tally : Type := {
  inserted : nat;
  skipped : nat;
  errors : nat
}.

Definition skip_record (st : sa_state) : sa_state :=
  {| sa_conn := sa_conn st; sa_batch := sa_batch st;
     sa_inserted := sa_inserted st; sa_errors := sa_errors st;
     sa_skipped := S (sa_skipped st) |}.

Definition error_record (st : sa_state) : sa_state :=
  {| sa_conn := sa_conn st; sa_batch := sa_batch st;
     sa_inserted := sa_inserted st; sa_errors := S (sa_errors st);
     sa_skipped := sa_skipped st |}.

Definition set_batch (b : list att_row) (st : sa_state) : sa_state :=
  {| sa_conn := sa_conn st; sa_batch := b;
     sa_inserted := sa_inserted st; sa_errors := sa_errors st;
     sa_skipped := sa_skipped st |}.

(** [try: cursor.executemany(INSERT OR IGNORE ..., batch);
          inserted += len(batch)
     except Exception: errors += len(batch)] *)
Definition insert_batch (st : sa_state) : sa_state :=
  match executemany (InsertOrIgnoreAttendance <$> sa_batch st) (sa_conn st) with
  | (Ok _, c) =>
      {| sa_conn := c; sa_batch := sa_batch st;
         sa_inserted := sa_inserted st + length (sa_batch st);
         sa_errors := sa_errors st; sa_skipped := sa_skipped st |}
  | (Raise _, c) =>
      {| sa_conn := c; sa_batch := sa_batch st;
         sa_inserted := sa_inserted st;
         sa_errors := sa_errors st + length (sa_batch st);
         sa_skipped := sa_skipped st |}
  end.

(** The size at which the loop hands [batch] to [executemany]. *)
Definition BATCH_SIZE : nat := 1000.

(** The body of the [for] loop, inside its [try]: the attribute check, the
    coercions, the empty [user_id] check, the name lookup, [batch.append]
    and the insert of a full batch. *)
Definition record_body (device_ip : string) (users_dict : gmap pyval string)
    (att : attendance) (st : sa_state) : result sa_state :=
  match att_user_id att, att_timestamp att with
  | Some raw_user_id, Some raw_timestamp =>
      uid ← int_or_zero (getattr (att_uid att) (PInt 0));
      let user_id := strip (str raw_user_id) in
      let timestamp := strip (str raw_timestamp) in
      status ← int_or_zero (getattr (att_status att) (PInt 0));
      punch ← int_or_zero (getattr (att_punch att) (PInt 0));
      if String.eqb user_id "" then Ok (skip_record st)
      else
        let name := resolve_name users_dict (pretty uid) user_id in
        let row := {| ar_device_ip := device_ip; ar_uid := uid;
                      ar_user_id := user_id; ar_name := name;
                      ar_timestamp := timestamp; ar_status := status;
                      ar_punch := punch |} in
        let st1 := set_batch (sa_batch st ++ [row]) st in
        if (BATCH_SIZE <=? length (sa_batch st1))%nat
        then Ok (set_batch [] (insert_batch st1))
        else Ok st1
  | _, _ => Ok (skip_record st)
  end.

(** One iteration: [except Exception: errors += 1; continue]. *)
Definition process_record (device_ip : string) (users_dict : gmap pyval string)
    (st : sa_state) (att : attendance) : sa_state :=
  match record_body device_ip users_dict att st with
  | Ok st' => st'
  | Raise _ => error_record st
  end.

(** The state [save_attendance_to_db] is in when it reaches
    [db_conn.commit()]: the loop over the records, then the insert of what
    is left in [batch]. *)
Definition save_attendance_run (attendances : list attendance)
    (device_ip : string) (users_dict : gmap pyval string) (db : database)
  : sa_state :=
  let c := set_isolation_level_None (connect db) in
  let st0 := {| sa_conn := c; sa_batch := []; sa_inserted := 0;
                sa_errors := 0; sa_skipped := 0 |} in
  let st1 := foldl (process_record device_ip users_dict) st0 attendances in
  match sa_batch st1 with
  | [] => st1
  | _ => insert_batch st1
  end.

(** [save_attendance_to_db(attendances, device_ip, users_dict, db_file)]:
    the file it leaves and the counters it prints ([None] when it returns
    at once with "No attendance data to save."). *)
Definition save_attendance_to_db (attendances : list attendance)
    (device_ip : string) (users_dict : gmap pyval string) (db : database)
  : database * option tally :=
  match attendances with
  | [] => (db, None)
  | _ =>
      let st := save_attendance_run attendances device_ip users_dict db in
      (close (commit (sa_conn st)),
       Some {| inserted := sa_inserted st; skipped := sa_skipped st;
               errors := sa_errors st |})
  end.

(** The body of the [for user in users] loop of [save_users_to_db]: the
    tuple appended to [batch].  No statement of it can raise on a [user]. *)
Definition normalize_user (device_ip : string) (u : user) : user_row :=
  {| ur_device_ip := device_ip;
     ur_uid := user_uid u;
     ur_name := or_empty (user_name u);
     ur_privilege :=
       if (user_privilege u =? const.USER_ADMIN)%Z then "Admin" else "User";
     ur_password := or_empty (user_password u);
     ur_group_id := or_empty (user_group_id u);
     ur_user_id := or_empty (user_user_id u);
     ur_card :=
       match user_card u with
       | Some c => if truthy c then str c else ""
       | None => ""
       end |}.

(** What [save_users_to_db] prints. *)
Inductive save_users_output : Type :=
  | UsersSaved (n : nat)
  | ErrorSavingUsers (e : pyexn).

(** [save_users_to_db(users, device_ip, db_file)].  The connection keeps
    sqlite3's implicit transactions; on an exception the handler only
    prints, the connection is dropped uncommitted. *)
Definition save_users_to_db (users : list user) (device_ip : string)
    (db : database) : database * save_users_output :=
  let c := connect db in
  let batch := normalize_user device_ip <$> users in
  match executemany (InsertOrReplaceUser <$> batch) c with
  | (Ok _, c') => (close (commit c'), UsersSaved (length batch))
  | (Raise e, c') => (close c', ErrorSavingUsers e)
  end.

(* ===================================================================== *)
(** * 5. [zkteco_all.py]: the fleet loops                                 *)
(* ===================================================================== *)

(** What one device answers to each call of a session, in the order the
    scripts make them.  The devices are the environment of a run. *)
Record session : Type := {
  ses_connect : result unit;
  ses_set_sdk_build_1 : result unit;
  ses_disable_device : result unit;
  ses_get_users : result (list user);
  ses_get_attendance : result (list attendance);
  ses_device_info : result (list (string * string));
  ses_enable_device : result unit;
  ses_disconnect : result unit
}.

(** The devices behind their addresses. *)
Definition network : Type := string → session.

(** The calls made to the devices, as the run makes them. *)
Inductive call : Type :=
  | Connect (ip : option string)
  | SetSdkBuild1 (ip : string)
  | DisableDevice (ip : string)
  | ReadDeviceInfo (ip : string)
  | GetUsers (ip : string)
  | GetAttendance (ip : string)
  | EnableDevice (ip : string)
  | Disconnect (ip : string).

#[global] Instance call_eq_dec : EqDecision call.
Proof. solve_decision. Defined.

(** The variables of a fleet loop together with its surroundings: the
    database file, the calls made so far, and the three locals
    [total_users] / [total_records], [success_count], [failed_devices]. *)
Record fleet_state : Type := {
  fs_db : database;
  fs_calls : list call;
  fs_total : nat;
  fs_success : nat;
  fs_failed : list string
}.

(** Statements that read and update the state and may raise.  The state a
    raising statement leaves is kept: an assignment made before the
    exception is not undone by the handler. *)
Definition M (A : Type) : Type := fleet_state → result A * fleet_state.

#[global] Instance M_ret : MRet M := fun _ a st => (Ok a, st).
#[global] Instance M_bind : MBind M := fun _ _ f m st =>
  match m st with
  | (Ok a, st') => f a st'
  | (Raise e, st') => (Raise e, st')
  end.

(** A call to a device: logged, then answered by the device. *)
Definition device_call {A : Type} (c : call) (answer : result A) : M A :=
  fun st =>
    (answer,
     {| fs_db := fs_db st; fs_calls := fs_calls st ++ [c];
        fs_total := fs_total st; fs_success := fs_success st;
        fs_failed := fs_failed st |}).

(** [total += n; success_count += 1]. *)
Definition count_success (n : nat) : M unit :=
  fun st =>
    (Ok tt,
     {| fs_db := fs_db st; fs_calls := fs_calls st;
        fs_total := fs_total st + n; fs_success := S (fs_success st);
        fs_failed := fs_failed st |}).

(** A call of one of the two save functions on the database file. *)
Definition on_database {O : Type} (f : database → database * O) : M unit :=
  fun st =>
    (Ok tt,
     {| fs_db := fst (f (fs_db st)); fs_calls := fs_calls st;
        fs_total := fs_total st; fs_success := fs_success st;
        fs_failed := fs_failed st |}).

(** [failed_devices.append(f"{device_name} ({device_ip})")]. *)
Definition device_label (d : device) : string :=
  default "N/A" (dev_name d) +:+ " (" +:+ default "None" (dev_ip d) +:+ ")".

Definition record_failure (d : device) (st : fleet_state) : fleet_state :=
  {| fs_db := fs_db st; fs_calls := fs_calls st;
     fs_total := fs_total st; fs_success := fs_success st;
     fs_failed := fs_failed st ++ [device_label d] |}.

(** [try: body  except Exception as e: handler; continue]. *)
Definition try_except (body : M unit) (handler : fleet_state → fleet_state)
    (st : fleet_state) : fleet_state :=
  match body st with
  | (Ok _, st') => st'
  | (Raise _, st') => handler st'
  end.

(** [zk = ZK(device_ip, ...); conn = zk.connect()].  Without an address
    ([device.get('ip')] is [None]) pyzk has nothing to reach and raises. *)
Definition zk_connect (net : network) (ip : option string) : M (string * session) :=
  match ip with
  | Some a => _ ← device_call (Connect ip) (ses_connect (net a)); mret (a, net a)
  | None => device_call (Connect ip) (Raise TypeError)
  end.

(** The [try] block of [sync_all_devices_users] for one device. *)
Definition sync_users_body (net : network) (d : device) : M unit :=
  conn ← zk_connect net (dev_ip d);
  let '(ip, ses) := conn in
  _ ← device_call (DisableDevice ip) (ses_disable_device ses);
  users ← device_call (GetUsers ip) (ses_get_users ses);
  _ ← match users with
      | [] => mret tt
      | _ => _ ← on_database (save_users_to_db users ip);
             count_success (length users)
      end;
  _ ← device_call (EnableDevice ip) (ses_enable_device ses);
  device_call (Disconnect ip) (ses_disconnect ses).

(** The [try] block of [sync_all_devices_attendance] for one device. *)
Definition sync_attendance_body (net : network) (d : device) : M unit :=
  conn ← zk_connect net (dev_ip d);
  let '(ip, ses) := conn in
  _ ← device_call (DisableDevice ip) (ses_disable_device ses);
  users ← device_call (GetUsers ip) (ses_get_users ses);
  let users_dict := build_users_dict users in
  attendances ← device_call (GetAttendance ip) (ses_get_attendance ses);
  _ ← match attendances with
      | [] => mret tt
      | _ => _ ← on_database (save_attendance_to_db attendances ip users_dict);
             count_success (length attendances)
      end;
  _ ← device_call (EnableDevice ip) (ses_enable_device ses);
  device_call (Disconnect ip) (ses_disconnect ses).

(** One iteration of each [for idx, device in enumerate(devices, 1)]. *)
Definition sync_users_step (net : network) (st : fleet_state) (d : device)
  : fleet_state :=
  try_except (sync_users_body net d) (record_failure d) st.

Definition sync_attendance_step (net : network) (st : fleet_state) (d : device)
  : fleet_state :=
  try_except (sync_attendance_body net d) (record_failure d) st.

Definition fleet_start (db : database) : fleet_state :=
  {| fs_db := db; fs_calls := []; fs_total := 0; fs_success := 0;
     fs_failed := [] |}.

(** The results block a fleet loop prints:
    "Success: {success_count}/{len(devices)} devices", the total, and the
    failed devices. *)
Record report : Type := {
  rep_success : nat;
  rep_devices : nat;
  rep_total : nat;
  rep_failed : list string
}.

Definition report_of (devices : list device) (st : fleet_state) : report :=
  {| rep_success := fs_success st; rep_devices := length devices;
     rep_total := fs_total st; rep_failed := fs_failed st |}.

(** [sync_all_devices_users(devices, db_file)]: the state it ends in. *)
Definition sync_all_devices_users (net : network) (devices : list device)
    (db : database) : fleet_state :=
  foldl (sync_users_step net) (fleet_start db) devices.

(** [sync_all_devices_attendance(devices, db_file)]. *)
Definition sync_all_devices_attendance (net : network) (devices : list device)
    (db : database) : fleet_state :=
  foldl (sync_attendance_step net) (fleet_start db) devices.

(* ===================================================================== *)
(** * 6. [zkteco_all.py]: live capture                                    *)
(* ===================================================================== *)

(** One turn of [for att in conn.live_capture()]: what the non-blocking
    look at the keyboard finds at that moment ([None]: no key waiting,
    [Some c]: the character read), and what the generator yielded ([None]
    is the timeout sentinel). *)
Definition capture_turn : Type := option ascii * option attendance.

(** [user_input = ...read(1).lower(); if user_input == 'q': break]. *)
Definition quit_key (key : option ascii) : bool :=
  match key with
  | Some c => Ascii.eqb c "q" || Ascii.eqb c "Q"
  | None => false
  end.

(** [status_map.get(status_code, str(status_code))
     if status_code is not None else ''] with
    [status_code = getattr(att, 'status', None)]. *)
Definition status_text (status_code : pyval) : string :=
  match status_code with
  | PNone => ""
  | PInt 0 => "Check-In"
  | PInt 1 => "Check-Out"
  | PInt 2 => "Break-Out"
  | PInt 3 => "Break-In"
  | PInt 4 => "OT-In"
  | PInt 5 => "OT-Out"
  | v => str v
  end.

(** The row shown for an event:
    [[str(counter), uid, user_id, name, timestamp, status]]. *)
Definition capture_row (users_dict : gmap pyval string) (counter : nat)
    (att : attendance) : list string :=
  let uid := str (getattr (att_uid att) (PStr "")) in
  let user_id := str (getattr (att_user_id att) (PStr "")) in
  let timestamp := str (getattr (att_timestamp att) (PStr "")) in
  let status := status_text (getattr (att_status att) PNone) in
  let name := resolve_name users_dict uid user_id in
  [pretty counter; uid; user_id; name; timestamp; status].

(** The locals of the capture loop and the rows printed so far (column
    padding left aside). *)
Record capture_state : Type := {
  counter : nat;
  captured_events : nat;
  shown : list (list string)
}.

Definition capture_headers : list string :=
  ["#"; "UID"; "User ID"; "Name"; "Timestamp"; "Status"].

(** The part of the loop body after the keyboard check, for a real event. *)
Definition show_event (users_dict : gmap pyval string) (att : attendance)
    (st : capture_state) : capture_state :=
  let n := S (counter st) in
  let row := capture_row users_dict n att in
  {| counter := n;
     captured_events := S (captured_events st);
     shown := shown st ++ (if (n =? 1)%nat then [capture_headers] else []) ++ [row] |}.

(** The loop over the generator, on the turns it goes through. *)
Fixpoint capture_loop (users_dict : gmap pyval string)
    (turns : list capture_turn) (st : capture_state) : capture_state :=
  match turns with
  | [] => st
  | (key, att) :: rest =>
      if quit_key key then st
      else
        match att with
        | None => capture_loop users_dict rest st
        | Some a => capture_loop users_dict rest (show_event users_dict a st)
        end
  end.

(** [live_capture_interactive(conn, users)]. *)
Definition live_capture_interactive (turns : list capture_turn)
    (users : list user) : capture_state :=
  capture_loop (build_users_dict users) turns
    {| counter := 0; captured_events := 0; shown := [] |}.

(* ===================================================================== *)
(** * 7. [simple.py]                                                      *)
(* ===================================================================== *)

(** The privilege column of [collect_user_rows]:
    ['User' if user.privilege == const.USER_DEFAULT
     else 'Admin-%s' % user.privilege]. *)
Definition collect_privilege (u : user) : string :=
  if (user_privilege u =? const.USER_DEFAULT)%Z then "User"
  else "Admin-" +:+ pretty (user_privilege u).

(** [ip = device_entry.get('ip') or device_entry.get('address')]. *)
Definition snapshot_address (entry : device) : string :=
  str_or (or_empty (dev_ip entry)) (or_empty (dev_address entry)).

(** The second component of what [fetch_device_snapshot] returns: [''],
    ['missing ip'] or [str(exc)]. *)
Inductive snapshot_error : Type :=
  | NoError
  | MissingIp
  | DeviceError (e : pyexn).

(** [fetch_device_snapshot(device_entry, args)]: the info map and the error
    it returns.  [build_device_info] is one read of the device.  The
    [finally] block runs once [connect()] has returned a connection:
    [enable_device()] inside its own [try ... except Exception: pass], then
    [disconnect()], whose exception, if any, replaces the outcome. *)
Definition fetch_device_snapshot (net : network) (entry : device)
  : M (list (string * string) * snapshot_error) :=
  let ip := snapshot_address entry in
  if String.eqb ip "" then mret ([], MissingIp)
  else
    let ses := net ip in
    fun st =>
      match device_call (Connect (Some ip)) (ses_connect ses) st with
      | (Raise e, st1) => (Ok ([], DeviceError e), st1)
      | (Ok _, st1) =>
          let body : M (list (string * string)) :=
            _ ← device_call (SetSdkBuild1 ip) (ses_set_sdk_build_1 ses);
            _ ← device_call (DisableDevice ip) (ses_disable_device ses);
            device_call (ReadDeviceInfo ip) (ses_device_info ses) in
          let '(r, st2) := body st1 in
          let outcome := match r with
                         | Ok info => (info, NoError)
                         | Raise e => ([], DeviceError e)
                         end in
          let '(_, st3) :=
            device_call (EnableDevice ip) (ses_enable_device ses) st2 in
          match device_call (Disconnect ip) (ses_disconnect ses) st3 with
          | (Ok _, st4) => (Ok outcome, st4)
          | (Raise e, st4) => (Raise e, st4)
          end
      end.

(* ===================================================================== *)
(** * 8. Notions the statements are written with                          *)
(* ===================================================================== *)

(** [int(v)] with the default [0] of the two inner handlers. *)
Definition int_default (v : pyval) : Z :=
  match int v with
  | Ok z => z
  | Raise _ => 0%Z
  end.

(** The records the loop counts in [skipped]: an attribute [user_id] or
    [timestamp] is missing, or [user_id] is empty once trimmed. *)
Definition is_skipped (att : attendance) : bool :=
  match att_user_id att, att_timestamp att with
  | Some u, Some _ => String.eqb (strip (str u)) ""
  | _, _ => true
  end.

(** A record whose [user_id] is missing, or empty once trimmed. *)
Definition user_id_missing_or_empty (att : attendance) : bool :=
  match att_user_id att with
  | Some u => String.eqb (strip (str u)) ""
  | None => true
  end.

(** The row a record contributes to [batch], if it contributes one. *)
Definition normalize_attendance (device_ip : string)
    (users_dict : gmap pyval string) (att : attendance) : option att_row :=
  match att_user_id att, att_timestamp att with
  | Some u, Some t =>
      let uid := int_default (getattr (att_uid att) (PInt 0)) in
      let user_id := strip (str u) in
      if String.eqb user_id "" then None
      else Some {| ar_device_ip := device_ip; ar_uid := uid;
                   ar_user_id := user_id;
                   ar_name := resolve_name users_dict (pretty uid) user_id;
                   ar_timestamp := strip (str t);
                   ar_status := int_default (getattr (att_status att) (PInt 0));
                   ar_punch := int_default (getattr (att_punch att) (PInt 0)) |}
  | _, _ => None
  end.

(** [batch.append(row)] followed by the insert of a full batch. *)
Definition append_row (row : att_row) (st : sa_state) : sa_state :=
  let st1 := set_batch (sa_batch st ++ [row]) st in
  if (BATCH_SIZE <=? length (sa_batch st1))%nat
  then set_batch [] (insert_batch st1)
  else st1.

(** Cutting a list into consecutive pieces of [n] elements: the pieces
    completed so far and the piece under construction. *)
Fixpoint split_batches {A : Type} (n : nat) (cur : list A) (l : list A)
  : list (list A) * list A :=
  match l with
  | [] => ([], cur)
  | x :: l' =>
      if (n <=? length (cur ++ [x]))%nat
      then let '(cs, rest) := split_batches n [] l' in ((cur ++ [x]) :: cs, rest)
      else split_batches n (cur ++ [x]) l'
  end.

(** The chunks of a list: full pieces of [n] elements, then what is left
    if anything is. *)
Definition chunks {A : Type} (n : nat) (l : list A) : list (list A) :=
  let '(cs, rest) := split_batches n [] l in
  cs ++ match rest with
        | [] => []
        | _ => [rest]
        end.

(** The statements of a call that are executed: those before the first
    one that does not bind. *)
Fixpoint executed (ss : list statement) : list statement :=
  match ss with
  | [] => []
  | s :: ss' => if bindable s then s :: executed ss' else []
  end.

(** An insert of a chunk succeeds when every row of it binds. *)
Definition chunk_ok (c : list att_row) : bool :=
  forallb (λ r, bindable (InsertOrIgnoreAttendance r)) c.

(** Rows of the chunks whose insert succeeded, and of those whose insert
    failed. *)
Definition rows_inserted (cs : list (list att_row)) : nat :=
  sum_list (length <$> filter (λ c, chunk_ok c = true) cs).

Definition rows_failed (cs : list (list att_row)) : nat :=
  sum_list (length <$> filter (λ c, chunk_ok c = false) cs).

(** The rows [save_attendance_to_db] builds from a list of records, in
    order. *)
Definition accepted_rows (device_ip : string) (users_dict : gmap pyval string)
    (atts : list attendance) : list att_row :=
  omap (normalize_attendance device_ip users_dict) atts.

(** A device on which the user sync raises before the fetch is complete:
    no address, or [connect()], [disable_device()] or [get_users()]
    raises. *)
Definition users_fetch_fails (net : network) (d : device) : bool :=
  match dev_ip d with
  | None => true
  | Some ip =>
      match ses_connect (net ip), ses_disable_device (net ip),
            ses_get_users (net ip) with
      | Ok _, Ok _, Ok _ => false
      | _, _, _ => true
      end
  end.

(** The same for the attendance sync, which also calls
    [get_attendance()]. *)
Definition attendance_fetch_fails (net : network) (d : device) : bool :=
  match dev_ip d with
  | None => true
  | Some ip =>
      match ses_connect (net ip), ses_disable_device (net ip),
            ses_get_users (net ip), ses_get_attendance (net ip) with
      | Ok _, Ok _, Ok _, Ok _ => false
      | _, _, _, _ => true
      end
  end.

(** The number of users a device adds to [total_users], and whether it is
    counted in [success_count]: the fetch succeeds and is not empty. *)
Definition users_fetched (net : network) (d : device) : list user :=
  if users_fetch_fails net d then []
  else match dev_ip d with
       | Some ip =>
           match ses_get_users (net ip) with
           | Ok us => us
           | Raise _ => []
           end
       | None => []
       end.

Definition attendance_fetched (net : network) (d : device) : list attendance :=
  if attendance_fetch_fails net d then []
  else match dev_ip d with
       | Some ip =>
           match ses_get_attendance (net ip) with
           | Ok atts => atts
           | Raise _ => []
           end
       | None => []
       end.

(** A device whose release raises although its fetch did not:
    [enable_device()] or [disconnect()] raises. *)
Definition release_fails (net : network) (d : device) : bool :=
  match dev_ip d with
  | None => false
  | Some ip =>
      match ses_enable_device (net ip), ses_disconnect (net ip) with
      | Ok _, Ok _ => false
      | _, _ => true
      end
  end.

Definition is_connect (c : call) : bool :=
  match c with
  | Connect _ => true
  | _ => false
  end.

(** The connection attempts among the calls of a run. *)
Definition attempted (st : fleet_state) : list call :=
  List.filter is_connect (fs_calls st).

Definition count_true {A : Type} (f : A → bool) (l : list A) : nat :=
  length (List.filter f l).

(** The last element of a list that satisfies [f]. *)
Definition last_such {A : Type} (f : A → bool) (l : list A) : option A :=
  last (List.filter f l).



(** The statements of a list executed one after the other on a database. *)
Definition run_all (ss : list statement) (db : database) : database :=
  foldl (λ db s, exec_statement s db) db ss.

(** Everything the calls of a connection executed, in order. *)
Definition writes (calls : list (list statement)) : list statement :=
  mjoin (executed <$> calls).

(** The calls that insert the chunks [cs] into table [attendance]. *)
Definition chunk_calls (cs : list (list att_row)) : list (list statement) :=
  (λ c : list att_row, InsertOrIgnoreAttendance <$> c) <$> cs.

Definition is_attendance_insert (s : statement) : bool :=
  match s with
  | InsertOrIgnoreAttendance _ => true
  | InsertOrReplaceUser _ => false
  end.

(** The keys held by table [attendance]. *)
Definition attendance_keys (db : database) : list (string * string * string) :=
  att_key <$> db_attendance db.

(** A statement that finds its key in table [attendance]. *)
Definition key_present (db : database) (s : statement) : Prop :=
  match s with
  | InsertOrIgnoreAttendance r => att_key r ∈ attendance_keys db
  | InsertOrReplaceUser _ => False
  end.

(** What a stretch of [save_attendance_to_db] does to its state: the
    chunks [cs] handed to [executemany], the batch [rest] left pending and
    the number [nskip] of records skipped. *)
Definition sa_effect (st st' : sa_state) (cs : list (list att_row))
    (rest : list att_row) (nskip : nat) : Prop :=
  sa_batch st' = rest
  ∧ conn_calls (sa_conn st') = conn_calls (sa_conn st) ++ chunk_calls cs
  ∧ conn_working (sa_conn st')
    = run_all (writes (chunk_calls cs)) (conn_working (sa_conn st))
  ∧ conn_autocommit (sa_conn st') = conn_autocommit (sa_conn st)
  ∧ (conn_autocommit (sa_conn st) = true →
     conn_committed (sa_conn st) = conn_working (sa_conn st) →
     conn_committed (sa_conn st') = conn_working (sa_conn st'))
  ∧ sa_inserted st' = sa_inserted st + rows_inserted cs
  ∧ sa_errors st' = sa_errors st + rows_failed cs
  ∧ sa_skipped st' = sa_skipped st + nskip.


(** Whether a device is counted in [success_count] by the user sync, and
    whether its iteration ends in the [except] branch. *)
Definition users_success (net : network) (d : device) : bool :=
  match users_fetched net d with
  | [] => false
  | _ => true
  end.

Definition users_raises (net : network) (d : device) : bool :=
  users_fetch_fails net d || release_fails net d.

(** The same for the attendance sync. *)
Definition attendance_success (net : network) (d : device) : bool :=
  match attendance_fetched net d with
  | [] => false
  | _ => true
  end.

Definition attendance_raises (net : network) (d : device) : bool :=
  attendance_fetch_fails net d || release_fails net d.

(** What a list of devices adds to the three locals of a fleet loop. *)
Definition users_successes (net : network) (ds : list device) : nat :=
  count_true (users_success net) ds.

Definition users_total (net : network) (ds : list device) : nat :=
  sum_list ((λ d, length (users_fetched net d)) <$> ds).

Definition users_failures (net : network) (ds : list device) : list string :=
  device_label <$> List.filter (users_raises net) ds.

Definition attendance_successes (net : network) (ds : list device) : nat :=
  count_true (attendance_success net) ds.

Definition attendance_total (net : network) (ds : list device) : nat :=
  sum_list ((λ d, length (attendance_fetched net d)) <$> ds).

Definition attendance_failures (net : network) (ds : list device) : list string :=
  device_label <$> List.filter (attendance_raises net) ds.

(** The connection attempts a list of devices gives rise to. *)
Definition connects (ds : list device) : list call :=
  (λ d, Connect (dev_ip d)) <$> ds.

(** The events a capture goes through before the first turn at which the
    quit key is found. *)
Fixpoint events_before_quit (turns : list capture_turn) : list attendance :=
  match turns with
  | [] => []
  | (key, att) :: rest =>
      if quit_key key then []
      else match att with
           | Some a => a :: events_before_quit rest
           | None => events_before_quit rest
           end
  end.

(** A key of the index that holds a name, that is, a non-empty one. *)
Definition has_name (d : gmap pyval string) (key : string) : Prop :=
  ∃ n, d !! PStr key = Some n ∧ n ≠ "".

(** A user with a given privilege, all else empty. *)
Definition user_with_privilege (p : Z) : user :=
  {| user_uid := 1; user_name := None; user_privilege := p;
     user_password := None; user_group_id := None; user_user_id := None;
     user_card := None |}.

(* ===================================================================== *)
(** * 9. Sample data                                                      *)
(* ===================================================================== *)

Definition alice : user :=
  {| user_uid := 1; user_name := Some "Alice";
     user_privilege := const.USER_ADMIN; user_password := Some "4321";
     user_group_id := Some ""; user_user_id := Some "E1";
     user_card := Some (PInt 0) |}.

(** A user registered without a name. *)
Definition nameless : user :=
  {| user_uid := 5; user_name := None;
     user_privilege := const.USER_DEFAULT; user_password := None;
     user_group_id := None; user_user_id := Some "E5";
     user_card := None |}.

(** [alice] after her record was edited on the device. *)
Definition alice_renamed : user :=
  {| user_uid := 1; user_name := Some "Alice B.";
     user_privilege := const.USER_DEFAULT; user_password := Some "4321";
     user_group_id := Some "7"; user_user_id := Some "E1";
     user_card := Some (PInt 12345678) |}.

(** A user whose uid does not fit a 64-bit integer. *)
Definition oversized : user :=
  {| user_uid := 2 ^ 63; user_name := Some "Big";
     user_privilege := const.USER_DEFAULT; user_password := None;
     user_group_id := None; user_user_id := Some "E9";
     user_card := None |}.

Definition punch (uid : pyval) (user_id timestamp : string) : attendance :=
  {| att_uid := Some uid; att_user_id := Some (PStr user_id);
     att_timestamp := Some (PStr timestamp);
     att_status := Some (PInt 0); att_punch := Some (PInt 1) |}.

(** A record that carries a [user_id] and no [timestamp] attribute. *)
Definition punch_without_timestamp : attendance :=
  {| att_uid := Some (PInt 7); att_user_id := Some (PStr "7");
     att_timestamp := None;
     att_status := Some (PInt 0); att_punch := Some (PInt 1) |}.

(** 2001 records; the one at position 1000, the first of the second chunk,
    has a uid that does not bind. *)
Definition long_batch : list attendance :=
  (λ n : nat,
     punch (PInt (if (n =? 1000)%nat then 2 ^ 63 else Z.of_nat n)) "E1"
       (pretty n)) <$> seq 0 2001.

Definition reachable (users : list user) (atts : list attendance) : session :=
  {| ses_connect := Ok tt; ses_set_sdk_build_1 := Ok tt;
     ses_disable_device := Ok tt; ses_get_users := Ok users;
     ses_get_attendance := Ok atts; ses_device_info := Ok [];
     ses_enable_device := Ok tt; ses_disconnect := Ok tt |}.

Definition unreachable : session :=
  {| ses_connect := Raise (ZKNetworkError "can't reach device");
     ses_set_sdk_build_1 := Ok tt;
     ses_disable_device := Ok tt; ses_get_users := Ok [];
     ses_get_attendance := Ok []; ses_device_info := Ok [];
     ses_enable_device := Ok tt; ses_disconnect := Ok tt |}.

(** A device that answers until the users are asked for. *)
Definition fetch_breaks : session :=
  {| ses_connect := Ok tt; ses_set_sdk_build_1 := Ok tt;
     ses_disable_device := Ok tt;
     ses_get_users := Raise (ZKErrorResponse "can't read users");
     ses_get_attendance := Ok []; ses_device_info := Ok [];
     ses_enable_device := Ok tt; ses_disconnect := Ok tt |}.

(** A device that delivers its data and then fails to leave the disabled
    state. *)
Definition release_breaks : session :=
  {| ses_connect := Ok tt; ses_set_sdk_build_1 := Ok tt;
     ses_disable_device := Ok tt; ses_get_users := Ok [alice];
     ses_get_attendance := Ok [punch (PInt 1) "E1" "2024-05-02 08:00:00"];
     ses_device_info := Ok [];
     ses_enable_device := Raise (ZKErrorResponse "can't enable device");
     ses_disconnect := Ok tt |}.

Definition sample_network : network := λ ip,
  if String.eqb ip "10.0.0.5" then
    reachable [alice; nameless] [punch (PInt 1) "E1" "2024-05-02 08:00:00"]
  else if String.eqb ip "10.0.0.7" then
    reachable [alice_renamed]
      [punch (PInt 1) "E1" "2024-05-02 17:00:00";
       punch (PStr "abc") "E5" "2024-05-02 17:01:00"]
  else if String.eqb ip "10.0.0.8" then fetch_breaks
  else if String.eqb ip "10.0.0.9" then release_breaks
  else unreachable.

Definition gate (name ip : string) : device :=
  {| dev_ip := Some ip; dev_name := Some name; dev_address := None |}.

Opaque BATCH_SIZE.
(* ===================================================================== *)
(** * 10. Coercions and the loop body                                     *)
(* ===================================================================== *)

(** On [None], ints and strs [int()] raises nothing but [ValueError] and
    [TypeError], so the guarded coercion always returns. *)
Lemma int_or_zero_ok (v : pyval) : int_or_zero v = Ok (int_default v).
Proof.
  unfold int_or_zero, int_default, int.
  destruct v as [|z|s]; try reflexivity.
  destruct (parse_int s); reflexivity.
Qed.

Lemma is_skipped_normalize ip d (att : attendance) :
  is_skipped att = true ↔ normalize_attendance ip d att = None.
Proof.
  unfold is_skipped, normalize_attendance.
  destruct (att_user_id att) as [u|], (att_timestamp att) as [t|]; try done.
  destruct (String.eqb (strip (str u)) ""); done.
Qed.

Lemma not_skipped_normalize ip d (att : attendance) :
  is_skipped att = false → is_Some (normalize_attendance ip d att).
Proof.
  intros H. destruct (normalize_attendance ip d att) eqn:E; [eauto|].
  apply is_skipped_normalize in E. congruence.
Qed.

(** The loop body never raises: it skips the record or appends its row. *)
Lemma record_body_spec ip d (att : attendance) (st : sa_state) :
  record_body ip d att st =
  Ok (match normalize_attendance ip d att with
      | Some row => append_row row st
      | None => skip_record st
      end).
Proof.
  unfold record_body, normalize_attendance, append_row.
  destruct (att_user_id att) as [u|], (att_timestamp att) as [t|]; try reflexivity.
  rewrite !int_or_zero_ok. simpl.
  destruct (String.eqb (strip (str u)) ""); [reflexivity|].
  match goal with |- context [if ?b then _ else _] => destruct b end; reflexivity.
Qed.

Lemma process_record_spec ip d (st : sa_state) (att : attendance) :
  process_record ip d st att =
  match normalize_attendance ip d att with
  | Some row => append_row row st
  | None => skip_record st
  end.
Proof. unfold process_record. by rewrite record_body_spec. Qed.

(* ===================================================================== *)
(** * 11. The store                                                       *)
(* ===================================================================== *)

Section Store.
Implicit Types (r : att_row) (t : list att_row) (s : statement)
  (ss : list statement) (db : database) (c : connection).

Lemma insert_or_ignore_present r t :
  att_key r ∈ att_key <$> t → insert_or_ignore r t = t.
Proof. intros H. unfold insert_or_ignore. by rewrite bool_decide_eq_true_2. Qed.

Lemma insert_or_ignore_absent r t :
  att_key r ∉ att_key <$> t → insert_or_ignore r t = t ++ [r].
Proof. intros H. unfold insert_or_ignore. by rewrite bool_decide_eq_false_2. Qed.

Lemma insert_or_ignore_key r t : att_key r ∈ att_key <$> insert_or_ignore r t.
Proof.
  unfold insert_or_ignore. case_bool_decide; [done|].
  rewrite fmap_app. apply elem_of_app. right. by apply list_elem_of_singleton.
Qed.

Lemma insert_or_ignore_mono r t k :
  k ∈ att_key <$> t → k ∈ att_key <$> insert_or_ignore r t.
Proof.
  intros Hk. unfold insert_or_ignore. case_bool_decide; [done|].
  rewrite fmap_app. apply elem_of_app. by left.
Qed.

(** The UNIQUE constraint of [attendance] is an invariant of the table. *)
Lemma insert_or_ignore_NoDup r t :
  NoDup (att_key <$> t) → NoDup (att_key <$> insert_or_ignore r t).
Proof.
  intros H. unfold insert_or_ignore. case_bool_decide as Hk; [done|].
  rewrite fmap_app. apply NoDup_app. split; [done|]. split.
  - intros k Hin Hk'. apply list_elem_of_singleton in Hk'. by subst.
  - apply NoDup_singleton.
Qed.

Lemma exec_key_present db s : key_present db s → exec_statement s db = db.
Proof.
  destruct s as [r|r]; [|done]. simpl. intros H.
  rewrite insert_or_ignore_present by done. by destruct db.
Qed.

Lemma exec_key_mono db s s' :
  is_attendance_insert s = true → key_present db s' →
  key_present (exec_statement s db) s'.
Proof.
  destruct s as [r|r]; [|done]. intros _.
  destruct s' as [r'|r']; [|done]. simpl. unfold attendance_keys. simpl.
  apply insert_or_ignore_mono.
Qed.

Lemma exec_key_self db s :
  is_attendance_insert s = true → key_present (exec_statement s db) s.
Proof.
  destruct s as [r|r]; [|done]. intros _. simpl. unfold attendance_keys. simpl.
  apply insert_or_ignore_key.
Qed.

Lemma run_all_app ss ss' db :
  run_all (ss ++ ss') db = run_all ss' (run_all ss db).
Proof. unfold run_all. by rewrite foldl_app. Qed.

Lemma run_all_noop ss db :
  Forall (key_present db) ss → run_all ss db = db.
Proof.
  induction 1 as [|s ss Hs _ IH]; [done|].
  unfold run_all in *. simpl. by rewrite exec_key_present.
Qed.

Lemma run_all_mono ss db s' :
  Forall (λ s, is_attendance_insert s = true) ss →
  key_present db s' → key_present (run_all ss db) s'.
Proof.
  intros H. revert db. induction H as [|s ss Hs _ IH]; intros db Hk; [done|].
  apply (IH (exec_statement s db)). by apply exec_key_mono.
Qed.

Lemma run_all_present ss db :
  Forall (λ s, is_attendance_insert s = true) ss →
  Forall (key_present (run_all ss db)) ss.
Proof.
  intros H. revert db. induction H as [|s ss Hs Hss IH]; intros db; [done|].
  constructor.
  - apply (run_all_mono ss (exec_statement s db)); [done|]. by apply exec_key_self.
  - apply (IH (exec_statement s db)).
Qed.

(** Running the same inserts of attendance rows a second time changes
    nothing. *)
Lemma run_all_idempotent ss db :
  Forall (λ s, is_attendance_insert s = true) ss →
  run_all ss (run_all ss db) = run_all ss db.
Proof. intros H. apply run_all_noop. by apply run_all_present. Qed.

Lemma executed_all ss : forallb bindable ss = true → executed ss = ss.
Proof.
  induction ss as [|s ss IH]; [done|]. simpl.
  destruct (bindable s); [|done]. simpl. intros H. by rewrite IH.
Qed.

Lemma executed_sublist ss s : s ∈ executed ss → s ∈ ss.
Proof.
  induction ss as [|s' ss IH]; [done|]. simpl.
  destruct (bindable s'); [|by intros ?%elem_of_nil].
  intros [->|H]%elem_of_cons; [left|right; auto].
Qed.

Lemma run_statements_outcome ss c :
  fst (run_statements ss c)
  = if forallb bindable ss then Ok tt else Raise OverflowError.
Proof.
  revert c. induction ss as [|s ss IH]; intros c; [done|]. simpl.
  destruct (bindable s); [apply IH|done].
Qed.

(** [executemany] raises exactly when one of its rows does not bind. *)
Lemma executemany_outcome ss c :
  fst (executemany ss c)
  = if forallb bindable ss then Ok tt else Raise OverflowError.
Proof. unfold executemany. apply run_statements_outcome. Qed.

Lemma run_statements_working ss c :
  conn_working (snd (run_statements ss c)) = run_all (executed ss) (conn_working c).
Proof.
  revert c. induction ss as [|s ss IH]; intros c; [done|]. simpl.
  destruct (bindable s); [|done]. by rewrite IH.
Qed.

Lemma run_statements_calls ss c :
  conn_calls (snd (run_statements ss c)) = conn_calls c.
Proof.
  revert c. induction ss as [|s ss IH]; intros c; [done|]. simpl.
  destruct (bindable s); [|done]. by rewrite IH.
Qed.

Lemma run_statements_autocommit ss c :
  conn_autocommit (snd (run_statements ss c)) = conn_autocommit c.
Proof.
  revert c. induction ss as [|s ss IH]; intros c; [done|]. simpl.
  destruct (bindable s); [|done]. by rewrite IH.
Qed.

(** With [isolation_level = None] the file follows every statement. *)
Lemma run_statements_autocommitted ss c :
  conn_autocommit c = true → conn_committed c = conn_working c →
  conn_committed (snd (run_statements ss c)) = conn_working (snd (run_statements ss c)).
Proof.
  revert c. induction ss as [|s ss IH]; intros c Ha Hc; [done|]. simpl.
  destruct (bindable s); [|done]. apply IH; simpl; [done|]. by rewrite Ha.
Qed.

(** Inside a transaction the file stays as it was. *)
Lemma run_statements_uncommitted ss c :
  conn_autocommit c = false →
  conn_committed (snd (run_statements ss c)) = conn_committed c.
Proof.
  revert c. induction ss as [|s ss IH]; intros c Ha; [done|]. simpl.
  destruct (bindable s); [|done]. rewrite IH; simpl; [|done]. by rewrite Ha.
Qed.

Lemma writes_app calls calls' : writes (calls ++ calls') = writes calls ++ writes calls'.
Proof. unfold writes. by rewrite fmap_app, join_app. Qed.

Lemma chunk_calls_app (cs cs' : list (list att_row)) :
  chunk_calls (cs ++ cs') = chunk_calls cs ++ chunk_calls cs'.
Proof. unfold chunk_calls. by rewrite fmap_app. Qed.

Lemma writes_chunk_calls_inserts (cs : list (list att_row)) :
  Forall (λ s, is_attendance_insert s = true) (writes (chunk_calls cs)).
Proof.
  apply Forall_forall. intros s Hs. unfold writes, chunk_calls in Hs.
  apply list_elem_of_join in Hs as (ss & Hs & Hss).
  apply list_elem_of_fmap in Hss as (call & -> & Hcall).
  apply list_elem_of_fmap in Hcall as (c & -> & _).
  apply executed_sublist in Hs.
  by apply list_elem_of_fmap in Hs as (r & -> & _).
Qed.

Lemma forallb_bindable_chunk (c : list att_row) :
  forallb bindable (InsertOrIgnoreAttendance <$> c) = chunk_ok c.
Proof.
  unfold chunk_ok. induction c as [|r c' IH]; [done|].
  rewrite fmap_cons. cbn [forallb]. by rewrite IH.
Qed.

End Store.

(* ===================================================================== *)
(** * 12. [save_attendance_to_db]                                         *)
(* ===================================================================== *)

Section Attendance.
Implicit Types (st : sa_state) (cs : list (list att_row)) (row : att_row).

Lemma sum_list_app (l k : list nat) : sum_list (l ++ k) = sum_list l + sum_list k.
Proof. induction l as [|n l IH]; simpl; [done|]. rewrite IH. lia. Qed.

Lemma rows_inserted_app cs cs' :
  rows_inserted (cs ++ cs') = rows_inserted cs + rows_inserted cs'.
Proof. unfold rows_inserted. by rewrite filter_app, fmap_app, sum_list_app. Qed.

Lemma rows_failed_app cs cs' :
  rows_failed (cs ++ cs') = rows_failed cs + rows_failed cs'.
Proof. unfold rows_failed. by rewrite filter_app, fmap_app, sum_list_app. Qed.

Lemma rows_inserted_one (c : list att_row) :
  rows_inserted [c] = if chunk_ok c then length c else 0.
Proof.
  unfold rows_inserted. rewrite filter_cons, filter_nil.
  destruct (chunk_ok c); case_decide; simpl; try done; lia.
Qed.

Lemma rows_failed_one (c : list att_row) :
  rows_failed [c] = if chunk_ok c then 0 else length c.
Proof.
  unfold rows_failed. rewrite filter_cons, filter_nil.
  destruct (chunk_ok c); case_decide; simpl; try done; lia.
Qed.

Lemma sa_effect_refl st : sa_effect st st [] (sa_batch st) 0.
Proof.
  unfold sa_effect, chunk_calls, writes, rows_inserted, rows_failed. simpl.
  rewrite app_nil_r. repeat split; auto.
Qed.

Lemma sa_effect_trans st1 st2 st3 cs1 cs2 rest2 rest3 n1 n2 :
  sa_effect st1 st2 cs1 rest2 n1 → sa_effect st2 st3 cs2 rest3 n2 →
  sa_effect st1 st3 (cs1 ++ cs2) rest3 (n1 + n2).
Proof.
  intros (Hb1 & Hc1 & Hw1 & Ha1 & Hm1 & Hi1 & He1 & Hs1)
         (Hb2 & Hc2 & Hw2 & Ha2 & Hm2 & Hi2 & He2 & Hs2).
  unfold sa_effect.
  rewrite chunk_calls_app, writes_app, run_all_app, rows_inserted_app, rows_failed_app.
  repeat split.
  - done.
  - by rewrite Hc2, Hc1, app_assoc.
  - by rewrite Hw2, Hw1.
  - by rewrite Ha2.
  - intros Ha Hm. apply Hm2; [by rewrite Ha1|]. by apply Hm1.
  - lia.
  - lia.
  - lia.
Qed.

Lemma set_batch_effect b st : sa_effect st (set_batch b st) [] b 0.
Proof.
  unfold sa_effect, chunk_calls, writes, rows_inserted, rows_failed. simpl.
  rewrite app_nil_r. repeat split; auto.
Qed.

Lemma skip_record_effect st : sa_effect st (skip_record st) [] (sa_batch st) 1.
Proof.
  unfold sa_effect, chunk_calls, writes, rows_inserted, rows_failed. simpl.
  rewrite app_nil_r. repeat split; auto. lia.
Qed.

(** One insert of [batch]: the call is made, the rows before the first that
    does not bind are executed, and the whole batch is counted either as
    inserted or as errors. *)
Lemma insert_batch_effect st :
  sa_effect st (insert_batch st) [sa_batch st] (sa_batch st) 0.
Proof.
  unfold insert_batch, executemany.
  set (ss := InsertOrIgnoreAttendance <$> sa_batch st).
  set (c := {| conn_committed := conn_committed (sa_conn st);
               conn_working := conn_working (sa_conn st);
               conn_autocommit := conn_autocommit (sa_conn st);
               conn_calls := conn_calls (sa_conn st) ++ [ss] |}).
  pose proof (run_statements_outcome ss c) as Hout.
  pose proof (run_statements_working ss c) as Hwork.
  pose proof (run_statements_calls ss c) as Hcalls.
  pose proof (run_statements_autocommit ss c) as Hauto.
  pose proof (run_statements_autocommitted ss c) as Hcomm.
  unfold ss in Hout at 2. rewrite forallb_bindable_chunk in Hout.
  assert (Hw : writes (chunk_calls [sa_batch st]) = executed ss).
  { unfold writes, chunk_calls. simpl. by rewrite app_nil_r. }
  unfold sa_effect. rewrite Hw, rows_inserted_one, rows_failed_one.
  destruct (run_statements ss c) as [[[]|e] c'] eqn:E; simpl in *;
    destruct (chunk_ok (sa_batch st)); try discriminate;
    repeat split; auto; lia.
Qed.

Lemma split_batches_cons {A} n (cur : list A) x l :
  split_batches n cur (x :: l) =
  if (n <=? length (cur ++ [x]))%nat
  then ((cur ++ [x]) :: fst (split_batches n [] l), snd (split_batches n [] l))
  else split_batches n (cur ++ [x]) l.
Proof. simpl. destruct (n <=? _)%nat; [|done]. by destruct (split_batches n [] l). Qed.

Lemma append_row_effect row st :
  sa_effect st (append_row row st)
    (if (BATCH_SIZE <=? length (sa_batch st ++ [row]))%nat
     then [sa_batch st ++ [row]] else [])
    (if (BATCH_SIZE <=? length (sa_batch st ++ [row]))%nat
     then [] else sa_batch st ++ [row])
    0.
Proof.
  unfold append_row. cbn [set_batch sa_batch].
  destruct (BATCH_SIZE <=? length (sa_batch st ++ [row]))%nat.
  - set (b := sa_batch st ++ [row]).
    pose proof (set_batch_effect b st) as E1.
    pose proof (insert_batch_effect (set_batch b st)) as E2.
    cbn [set_batch sa_batch] in E2.
    pose proof (set_batch_effect [] (insert_batch (set_batch b st))) as E3.
    exact (sa_effect_trans _ _ _ _ _ _ _ _ _ E1
             (sa_effect_trans _ _ _ _ _ _ _ _ _ E2 E3)).
  - apply set_batch_effect.
Qed.

Lemma accepted_rows_cons ip d (att : attendance) atts :
  accepted_rows ip d (att :: atts) =
  match normalize_attendance ip d att with
  | Some row => row :: accepted_rows ip d atts
  | None => accepted_rows ip d atts
  end.
Proof. reflexivity. Qed.

(** The loop over the records: the accepted rows are cut into batches of
    [BATCH_SIZE], each full batch is handed to [executemany] whatever
    became of the ones before it, and every other record is counted as
    skipped. *)
Lemma loop_effect ip d atts st :
  sa_effect st (foldl (process_record ip d) st atts)
    (fst (split_batches BATCH_SIZE (sa_batch st) (accepted_rows ip d atts)))
    (snd (split_batches BATCH_SIZE (sa_batch st) (accepted_rows ip d atts)))
    (count_true is_skipped atts).
Proof.
  revert st. induction atts as [|att atts IH]; intros st.
  { apply sa_effect_refl. }
  cbn [foldl]. rewrite process_record_spec, accepted_rows_cons.
  unfold count_true. cbn [List.filter].
  destruct (normalize_attendance ip d att) as [row|] eqn:E.
  - assert (is_skipped att = false) as ->.
    { destruct (is_skipped att) eqn:Hs; [|done].
      apply (is_skipped_normalize ip d) in Hs. congruence. }
    rewrite split_batches_cons.
    pose proof (append_row_effect row st) as H1.
    pose proof (IH (append_row row st)) as H2.
    destruct H1 as (Hb & H1'). pose proof (conj Hb H1') as H1.
    destruct (BATCH_SIZE <=? length (sa_batch st ++ [row]))%nat.
    + rewrite Hb in H2. cbn [fst snd].
      change (?c :: ?cs) with ([c] ++ cs).
      change (length (List.filter is_skipped atts))
        with (0 + length (List.filter is_skipped atts)).
      eapply sa_effect_trans; [exact H1|exact H2].
    + rewrite Hb in H2.
      change (fst ?p) with ([] ++ fst p).
      change (length (List.filter is_skipped atts))
        with (0 + length (List.filter is_skipped atts)).
      eapply sa_effect_trans; [exact H1|exact H2].
  - assert (is_skipped att = true) as -> by by apply (is_skipped_normalize ip d).
    cbn [length].
    change (fst ?p) with ([] ++ fst p).
    change (S ?n) with (1 + n).
    eapply sa_effect_trans; [apply skip_record_effect|].
    apply (IH (skip_record st)).
Qed.

(** The whole run: every chunk of the accepted rows is handed to
    [executemany], in order. *)
Lemma save_attendance_run_effect atts ip d db :
  let st := save_attendance_run atts ip d db in
  let cs := chunks BATCH_SIZE (accepted_rows ip d atts) in
  conn_calls (sa_conn st) = chunk_calls cs
  ∧ conn_working (sa_conn st) = run_all (writes (chunk_calls cs)) db
  ∧ conn_committed (sa_conn st) = conn_working (sa_conn st)
  ∧ sa_inserted st = rows_inserted cs
  ∧ sa_errors st = rows_failed cs
  ∧ sa_skipped st = count_true is_skipped atts.
Proof.
  intros st cs. subst st cs. unfold save_attendance_run, chunks.
  set (st0 := {| sa_conn := set_isolation_level_None (connect db);
                 sa_batch := []; sa_inserted := 0; sa_errors := 0;
                 sa_skipped := 0 |}).
  pose proof (loop_effect ip d atts st0) as H1.
  change (sa_batch st0) with (@nil att_row) in H1.
  destruct (split_batches BATCH_SIZE [] (accepted_rows ip d atts)) as [cs rest].
  cbn [fst snd] in H1.
  set (st1 := foldl (process_record ip d) st0 atts) in *.
  assert (H : sa_effect st0
                (match sa_batch st1 with [] => st1 | _ => insert_batch st1 end)
                (cs ++ match rest with [] => [] | _ => [rest] end)
                (sa_batch st1) (count_true is_skipped atts + 0)).
  { pose proof H1 as (Hb & _).
    destruct rest as [|r rest'].
    - pose proof (sa_effect_trans _ _ _ _ _ _ _ _ _ H1 (sa_effect_refl st1)) as E.
      rewrite Hb in *. exact E.
    - pose proof (sa_effect_trans _ _ _ _ _ _ _ _ _ H1 (insert_batch_effect st1)) as E.
      rewrite Hb in *. exact E. }
  destruct H as (_ & Hc & Hw & Ha & Hm & Hi & He & Hs).
  repeat split; try done.
  - apply Hm; reflexivity.
  - rewrite Hs. simpl. lia.
Qed.

End Attendance.

Section AttendanceResults.
Implicit Types (cs : list (list att_row)) (row : att_row).

(** [split_batches] loses nothing and keeps the order. *)
Lemma split_batches_join {A} n (cur l : list A) :
  mjoin (fst (split_batches n cur l)) ++ snd (split_batches n cur l) = cur ++ l.
Proof.
  revert cur. induction l as [|x l IH]; intros cur.
  { simpl. by rewrite app_nil_r. }
  rewrite split_batches_cons.
  destruct (n <=? length (cur ++ [x]))%nat.
  - cbn [fst snd].
    change (mjoin ((cur ++ [x]) :: ?cs)) with ((cur ++ [x]) ++ mjoin cs).
    rewrite <- !app_assoc, (IH []). done.
  - rewrite IH. by rewrite <- app_assoc.
Qed.

(** The pieces it completes hold exactly [n] elements, and fewer than [n]
    are left pending. *)
Lemma split_batches_sizes {A} n (cur l : list A) :
  0 < n → length cur < n →
  Forall (λ c, length c = n) (fst (split_batches n cur l))
  ∧ length (snd (split_batches n cur l)) < n.
Proof.
  intros Hn. revert cur. induction l as [|x l IH]; intros cur Hcur.
  { simpl. by split. }
  rewrite split_batches_cons.
  destruct (n <=? length (cur ++ [x]))%nat eqn:E.
  - apply Nat.leb_le in E. rewrite length_app in E. simpl in E.
    cbn [fst snd]. destruct (IH []) as [H1 H2]; [simpl; lia|].
    split; [|done]. constructor; [|done]. rewrite length_app. simpl. lia.
  - apply Nat.leb_gt in E. by apply IH.
Qed.

Lemma chunks_join {A} n (l : list A) : mjoin (chunks n l) = l.
Proof.
  unfold chunks. pose proof (split_batches_join n [] l) as H.
  destruct (split_batches n [] l) as [cs rest]. cbn [fst snd] in H.
  rewrite join_app. destruct rest; simpl in *; by rewrite ?app_nil_r in *.
Qed.

Lemma chunks_sizes {A} n (l : list A) :
  0 < n → Forall (λ c, 0 < length c ≤ n) (chunks n l).
Proof.
  intros Hn. unfold chunks.
  destruct (split_batches_sizes n [] l Hn) as [H1 H2]; [simpl; lia|].
  destruct (split_batches n [] l) as [cs rest]. cbn [fst snd] in *.
  apply Forall_app. split.
  - eapply Forall_impl; [exact H1|]. simpl. intros c Hc. lia.
  - destruct rest as [|x rest]; constructor; [|done]. simpl in *. lia.
Qed.

(** Every chunk but the last is full. *)
Lemma chunks_full {A} n (l : list A) pre c post :
  0 < n → chunks n l = pre ++ c :: post →
  Forall (λ c', length c' = n) pre ∧ (length c = n ∨ post = []).
Proof.
  intros Hn. unfold chunks.
  destruct (split_batches_sizes n [] l Hn) as [H1 _]; [simpl; lia|].
  destruct (split_batches n [] l) as [cs rest]. cbn [fst] in H1.
  intros E.
  assert (Hcases : (∃ post', cs = pre ++ c :: post') ∨ post = [] ∧ cs = pre).
  { destruct rest as [|x rest].
    - left. exists post. by rewrite app_nil_r in E.
    - destruct post as [|p post _] using rev_ind.
      + right. split; [done|].
        change (pre ++ [c]) with (pre ++ [c]) in E.
        by apply app_inj_tail in E as [-> _].
      + left. exists post. rewrite app_comm_cons, app_assoc in E.
        by apply app_inj_tail in E as [-> _]. }
  destruct Hcases as [[post' ->]|[-> ->]].
  - apply Forall_app in H1 as [Hpre Hc]. split; [done|].
    left. by inversion Hc.
  - split; [done|by right].
Qed.

Lemma BATCH_SIZE_pos : 0 < BATCH_SIZE.
Proof. apply Nat.ltb_lt. vm_compute. reflexivity. Qed.

(** The file [save_attendance_to_db] leaves: the statements executed by
    its calls, run on the file it found. *)
Lemma save_attendance_db atts ip d db :
  fst (save_attendance_to_db atts ip d db)
  = run_all (writes (chunk_calls (chunks BATCH_SIZE (accepted_rows ip d atts)))) db.
Proof.
  destruct atts as [|att atts]; [reflexivity|].
  pose proof (save_attendance_run_effect (att :: atts) ip d db) as (_ & Hw & _).
  unfold save_attendance_to_db. cbn [fst close commit conn_committed]. exact Hw.
Qed.

(** The counters it prints depend on the records alone. *)
Lemma save_attendance_tally atts ip d db :
  snd (save_attendance_to_db atts ip d db)
  = match atts with
    | [] => None
    | _ =>
        let cs := chunks BATCH_SIZE (accepted_rows ip d atts) in
        Some {| inserted := rows_inserted cs;
                skipped := count_true is_skipped atts;
                errors := rows_failed cs |}
    end.
Proof.
  destruct atts as [|att atts]; [reflexivity|].
  pose proof (save_attendance_run_effect (att :: atts) ip d db)
    as (_ & _ & _ & Hi & He & Hs).
  unfold save_attendance_to_db. cbn [snd]. cbn zeta in *.
  by rewrite Hi, He, Hs.
Qed.

(** A row of a chunk whose insert succeeded is executed. *)
Lemma chunk_ok_written cs (c : list att_row) row :
  c ∈ cs → chunk_ok c = true → row ∈ c →
  InsertOrIgnoreAttendance row ∈ writes (chunk_calls cs).
Proof.
  intros Hc Hok Hrow. unfold writes, chunk_calls.
  apply list_elem_of_join. exists (InsertOrIgnoreAttendance <$> c). split.
  - by apply list_elem_of_fmap_2.
  - apply list_elem_of_fmap. exists (InsertOrIgnoreAttendance <$> c). split.
    + symmetry. apply executed_all. by rewrite forallb_bindable_chunk.
    + apply list_elem_of_fmap. by exists c.
Qed.

(** Whatever a call executed is in the table in the end. *)
Lemma written_persisted cs db row :
  InsertOrIgnoreAttendance row ∈ writes (chunk_calls cs) →
  att_key row ∈ attendance_keys (run_all (writes (chunk_calls cs)) db).
Proof.
  intros H.
  pose proof (run_all_present _ db (writes_chunk_calls_inserts cs)) as Hall.
  rewrite Forall_forall in Hall. exact (Hall _ H).
Qed.

(** A row of the table after some inserts was there before or is one of
    the rows inserted. *)
Lemma run_all_rows_from ss db row :
  row ∈ db_attendance (run_all ss db) →
  row ∈ db_attendance db ∨ InsertOrIgnoreAttendance row ∈ ss.
Proof.
  revert db. induction ss as [|s ss IH]; intros db H; [by left|].
  apply (IH (exec_statement s db)) in H as [H|H]; [|right; by right].
  destruct s as [r|r]; simpl in H; [|by left].
  unfold insert_or_ignore in H. case_bool_decide; [by left|].
  apply elem_of_app in H as [H|H]; [by left|].
  apply list_elem_of_singleton in H as ->. right. by left.
Qed.

Lemma written_accepted ip d atts row :
  InsertOrIgnoreAttendance row
    ∈ writes (chunk_calls (chunks BATCH_SIZE (accepted_rows ip d atts))) →
  ∃ att, att ∈ atts ∧ normalize_attendance ip d att = Some row.
Proof.
  intros H. unfold writes, chunk_calls in H.
  apply list_elem_of_join in H as (ss & Hs & Hss).
  apply list_elem_of_fmap in Hss as (call & -> & Hcall).
  apply list_elem_of_fmap in Hcall as (c & -> & Hc).
  apply executed_sublist in Hs.
  apply list_elem_of_fmap in Hs as (r & [= ->] & Hr).
  assert (Hin : r ∈ accepted_rows ip d atts).
  { rewrite <- (chunks_join BATCH_SIZE (accepted_rows ip d atts)).
    apply list_elem_of_join. by exists c. }
  unfold accepted_rows in Hin. by apply list_elem_of_omap in Hin.
Qed.

End AttendanceResults.

Section AttendanceClaims.

Lemma chunk_ok_sublist (c l : list att_row) :
  chunk_ok l = true → c ⊆ l → chunk_ok c = true.
Proof.
  unfold chunk_ok. rewrite !forallb_forall. intros H Hsub r Hr.
  apply H. apply list_elem_of_In. apply Hsub. by apply list_elem_of_In.
Qed.

Lemma rows_total (cs : list (list att_row)) :
  rows_inserted cs + rows_failed cs = length (mjoin cs).
Proof.
  induction cs as [|c cs IH]; [done|].
  change (c :: cs) with ([c] ++ cs).
  rewrite rows_inserted_app, rows_failed_app, join_app, length_app, <- IH.
  rewrite rows_inserted_one, rows_failed_one. simpl. rewrite app_nil_r.
  destruct (chunk_ok c); lia.
Qed.

Lemma rows_failed_none (cs : list (list att_row)) :
  Forall (λ c, chunk_ok c = true) cs → rows_failed cs = 0.
Proof.
  induction 1 as [|c cs Hc _ IH]; [done|].
  change (c :: cs) with ([c] ++ cs).
  by rewrite rows_failed_app, rows_failed_one, Hc, IH.
Qed.

Lemma chunks_sublist {A} n (l c : list A) : c ∈ chunks n l → c ⊆ l.
Proof.
  intros Hc x Hx. rewrite <- (chunks_join n l).
  apply list_elem_of_join. by exists c.
Qed.

Lemma count_skipped_none atts :
  Forall (λ a, is_skipped a = false) atts → count_true is_skipped atts = 0.
Proof.
  unfold count_true. induction 1 as [|a atts Ha _ IH]; [done|].
  simpl. by rewrite Ha.
Qed.

Lemma accepted_rows_length ip d atts :
  Forall (λ a, is_skipped a = false) atts →
  length (accepted_rows ip d atts) = length atts.
Proof.
  induction 1 as [|a atts Ha _ IH]; [done|].
  rewrite accepted_rows_cons.
  destruct (not_skipped_normalize ip d a Ha) as [row ->]. simpl. by rewrite IH.
Qed.

(** C1 -- Ingesting the same attendance batch a second time leaves the
    database file exactly as the first ingestion left it: the same rows,
    hence the same row count.  The counters printed by the second run are
    those of the first, since they never depend on what the store holds.  A
    row whose (device_ip, user_id, timestamp) key is in the table is ignored
    by the insert; and when every record of the batch yields a row that
    binds, the second run reports no skip and no error although it adds no
    row (the rows it re-sends are counted under "New records"). *)
Theorem attendance_resync_idempotent (atts : list attendance) (ip : string)
    (d : gmap pyval string) (db : database) :
  let once := save_attendance_to_db atts ip d db in
  let twice := save_attendance_to_db atts ip d (fst once) in
  fst twice = fst once
  ∧ length (db_attendance (fst twice)) = length (db_attendance (fst once))
  ∧ snd twice = snd once
  ∧ (∀ db' : database, snd (save_attendance_to_db atts ip d db') = snd once)
  ∧ (∀ (r : att_row) (t : list att_row),
       att_key r ∈ att_key <$> t → insert_or_ignore r t = t)
  ∧ (atts ≠ [] →
     Forall (λ a, is_skipped a = false) atts →
     chunk_ok (accepted_rows ip d atts) = true →
     snd twice = Some {| inserted := length atts; skipped := 0; errors := 0 |}).
Proof.
  intros once twice.
  assert (Hdb : fst twice = fst once).
  { subst once twice. rewrite !save_attendance_db.
    apply run_all_idempotent, writes_chunk_calls_inserts. }
  assert (Htally : ∀ db', snd (save_attendance_to_db atts ip d db') = snd once).
  { intros db'. subst once. by rewrite !save_attendance_tally. }
  split; [exact Hdb|]. split; [by rewrite Hdb|].
  split; [apply Htally|]. split; [exact Htally|].
  split; [apply insert_or_ignore_present|].
  intros Hne Hskip Hok. subst twice. rewrite save_attendance_tally.
  destruct atts as [|a atts']; [done|].
  set (l := a :: atts') in *. cbn zeta.
  set (cs := chunks BATCH_SIZE (accepted_rows ip d l)).
  assert (Hall : Forall (λ c, chunk_ok c = true) cs).
  { apply Forall_forall. intros c Hc.
    apply (chunk_ok_sublist c _ Hok). by apply (chunks_sublist BATCH_SIZE). }
  pose proof (rows_total cs) as Htot.
  rewrite (rows_failed_none cs Hall) in *.
  rewrite (count_skipped_none l Hskip).
  unfold cs in Htot at 2. rewrite chunks_join, accepted_rows_length in Htot by done.
  do 2 f_equal. lia.
Qed.

(** C6 -- When the insert of one chunk fails, the call goes on: every chunk
    of the accepted rows, before and after the failing one, is handed to
    [executemany]; the failing chunk adds exactly its row count to the error
    counter and nothing to the inserted counter, which keeps what the other
    chunks contribute; the rows of every earlier chunk whose insert
    succeeded are in the table at the end.  Chunks hold [BATCH_SIZE] rows,
    the last one possibly fewer. *)
Theorem chunk_failure_contained (atts : list attendance) (ip : string)
    (d : gmap pyval string) (db : database)
    (pre : list (list att_row)) (c : list att_row) (post : list (list att_row)) :
  chunks BATCH_SIZE (accepted_rows ip d atts) = pre ++ c :: post →
  chunk_ok c = false →
  let st := save_attendance_run atts ip d db in
  let out := save_attendance_to_db atts ip d db in
  (∀ conn : connection,
     fst (executemany (InsertOrIgnoreAttendance <$> c) conn)
     = Raise OverflowError)
  ∧ conn_calls (sa_conn st)
    = chunk_calls pre ++ [InsertOrIgnoreAttendance <$> c] ++ chunk_calls post
  ∧ snd out = Some {| inserted := rows_inserted pre + rows_inserted post;
                      skipped := count_true is_skipped atts;
                      errors := rows_failed pre + length c + rows_failed post |}
  ∧ (∀ (c' : list att_row) (r : att_row),
       c' ∈ pre → chunk_ok c' = true → r ∈ c' →
       att_key r ∈ attendance_keys (fst out))
  ∧ Forall (λ c', length c' = BATCH_SIZE) pre
  ∧ (length c = BATCH_SIZE ∨ post = []).
Proof.
  intros Hcs Hfail st out.
  pose proof (save_attendance_run_effect atts ip d db) as (Hcalls & _).
  cbn zeta in Hcalls. rewrite Hcs in Hcalls.
  split.
  { intros conn. by rewrite executemany_outcome, forallb_bindable_chunk, Hfail. }
  split.
  { subst st. rewrite Hcalls. change (c :: post) with ([c] ++ post).
    by rewrite !chunk_calls_app. }
  split.
  { subst out. rewrite save_attendance_tally.
    destruct atts as [|a atts'].
    - exfalso. by destruct pre.
    - cbn zeta. rewrite Hcs. change (c :: post) with ([c] ++ post).
      rewrite !rows_inserted_app, !rows_failed_app.
      rewrite rows_inserted_one, rows_failed_one, Hfail.
      do 2 f_equal; lia. }
  split.
  { intros c' r Hc' Hok Hr. subst out. rewrite save_attendance_db, Hcs.
    apply written_persisted. apply (chunk_ok_written _ c'); [|done|done].
    apply elem_of_app. by left. }
  apply (chunks_full BATCH_SIZE (accepted_rows ip d atts)); [|done].
  apply BATCH_SIZE_pos.
Qed.

(** C4 -- A record whose [user_id] is missing, or empty once trimmed, only
    adds one to the skip counter: no row is appended to the batch, nothing
    is sent to the store, the error counter stays.  The same holds for a
    record that has a [user_id] but no [timestamp] attribute.  Every other
    record is coerced to a row and appended to the batch.  Over a whole
    call the skip counter is the number of such records, and every row of
    the table was there before or was built from a record that is not
    skipped. *)
Theorem skip_law (ip : string) (d : gmap pyval string) (att : attendance)
    (st : sa_state) (atts : list attendance) (db : database) :
  (user_id_missing_or_empty att = true →
   process_record ip d st att = skip_record st)
  ∧ (user_id_missing_or_empty att = false → att_timestamp att = None →
     process_record ip d st att = skip_record st)
  ∧ (user_id_missing_or_empty att = false → att_timestamp att ≠ None →
     ∃ row, normalize_attendance ip d att = Some row
            ∧ process_record ip d st att = append_row row st)
  ∧ is_skipped att
    = user_id_missing_or_empty att || negb (hasattr (att_timestamp att))
  ∧ (atts ≠ [] →
     skipped <$> snd (save_attendance_to_db atts ip d db)
     = Some (count_true is_skipped atts))
  ∧ (∀ r : att_row,
       r ∈ db_attendance (fst (save_attendance_to_db atts ip d db)) →
       r ∈ db_attendance db
       ∨ ∃ a, a ∈ atts ∧ is_skipped a = false
              ∧ normalize_attendance ip d a = Some r).
Proof.
  assert (Hsk : is_skipped att
    = user_id_missing_or_empty att || negb (hasattr (att_timestamp att))).
  { unfold is_skipped, user_id_missing_or_empty.
    destruct (att_user_id att), (att_timestamp att); simpl;
      by rewrite ?orb_true_r, ?orb_false_r. }
  rewrite !process_record_spec.
  split; [|split; [|split; [|split; [exact Hsk|split]]]].
  - intros H. rewrite H in Hsk.
    apply (is_skipped_normalize ip d) in Hsk. by rewrite Hsk.
  - intros H Ht. rewrite H, Ht in Hsk.
    apply (is_skipped_normalize ip d) in Hsk. by rewrite Hsk.
  - intros H Ht. assert (is_skipped att = false) as Hns.
    { rewrite Hsk, H. by destruct (att_timestamp att). }
    destruct (not_skipped_normalize ip d att Hns) as [row Hrow].
    exists row. by rewrite Hrow.
  - intros Hne. rewrite save_attendance_tally. by destruct atts.
  - intros r Hr. rewrite save_attendance_db in Hr.
    apply run_all_rows_from in Hr as [Hr|Hr]; [by left|right].
    apply written_accepted in Hr as (a & Ha & Hn). exists a.
    split; [done|]. split; [|done].
    destruct (is_skipped a) eqn:E; [|done].
    apply (is_skipped_normalize ip d) in E. congruence.
Qed.

End AttendanceClaims.

(* ===================================================================== *)
(** * 13. [save_users_to_db]                                              *)
(* ===================================================================== *)

Section Users.
Implicit Types (r : user_row) (t : list user_row) (k : string * Z).

(** The rows that hold a key after one INSERT OR REPLACE. *)
Lemma insert_or_replace_key r t k :
  filter (λ r', user_key r' = k) (insert_or_replace r t)
  = if decide (user_key r = k) then [r]
    else filter (λ r', user_key r' = k) t.
Proof.
  unfold insert_or_replace. rewrite filter_app.
  assert (Hone : filter (λ r', user_key r' = k) [r]
                 = if decide (user_key r = k) then [r] else []).
  { rewrite filter_cons, filter_nil. by destruct (decide (user_key r = k)). }
  rewrite Hone. clear Hone.
  induction t as [|r0 t IH]; simpl.
  { by destruct (decide (user_key r = k)). }
  rewrite !filter_cons.
  destruct (decide (user_key r0 ≠ user_key r)) as [Hne|Heq].
  - rewrite filter_cons.
    destruct (decide (user_key r0 = k)) as [H0|H0].
    + destruct (decide (user_key r = k)) as [Hr|Hr]; [congruence|].
      simpl. f_equal. rewrite app_nil_r in IH. by rewrite app_nil_r, IH.
    + exact IH.
  - apply dec_stable in Heq.
    destruct (decide (user_key r0 = k)) as [H0|H0].
    + destruct (decide (user_key r = k)) as [Hr|Hr]; [exact IH|congruence].
    + destruct (decide (user_key r = k)) as [Hr|Hr]; [congruence|exact IH].
Qed.

(** The UNIQUE constraint of [users] is an invariant of the table. *)
Lemma insert_or_replace_NoDup r t :
  NoDup (user_key <$> t) → NoDup (user_key <$> insert_or_replace r t).
Proof.
  intros H. unfold insert_or_replace. rewrite fmap_app.
  apply NoDup_app. split; [|split].
  - induction t as [|r0 t IH]; [constructor|].
    rewrite fmap_cons in H. apply NoDup_cons in H as [Hr0 Ht].
    rewrite filter_cons. destruct (decide (user_key r0 ≠ user_key r)); [|auto].
    rewrite fmap_cons. apply NoDup_cons. split; [|auto].
    intros Hin. apply Hr0.
    apply list_elem_of_fmap in Hin as (r1 & E & Hr1).
    apply list_elem_of_filter in Hr1 as [_ Hr1].
    apply list_elem_of_fmap. by exists r1.
  - intros k' Hin Hk. apply list_elem_of_singleton in Hk. subst k'.
    apply list_elem_of_fmap in Hin as (r1 & E & Hr1).
    apply list_elem_of_filter in Hr1 as [Hne _]. by apply Hne.
  - apply NoDup_singleton.
Qed.

Lemma run_all_users (rows : list user_row) (db : database) :
  run_all (InsertOrReplaceUser <$> rows) db
  = {| db_attendance := db_attendance db;
       db_users := foldl (λ t r, insert_or_replace r t) (db_users db) rows |}.
Proof.
  revert db. induction rows as [|r rows IH]; intros db; [by destruct db|].
  rewrite fmap_cons. unfold run_all in *. cbn [foldl]. by rewrite IH.
Qed.

(** After a sequence of upserts a key holds the last row written for it,
    and only that row. *)
Lemma upserts_key (rows : list user_row) t k :
  filter (λ r', user_key r' = k) (foldl (λ t r, insert_or_replace r t) t rows)
  = match last (filter (λ r', user_key r' = k) rows) with
    | Some r => [r]
    | None => filter (λ r', user_key r' = k) t
    end.
Proof.
  revert t. induction rows as [|r rows IH]; intros t; [done|].
  cbn [foldl]. rewrite IH, insert_or_replace_key, filter_cons.
  destruct (decide (user_key r = k)) as [Hr|Hr]; [|done].
  rewrite last_cons.
  by destruct (last (filter (λ r', user_key r' = k) rows)).
Qed.

Lemma upserts_NoDup (rows : list user_row) t :
  NoDup (user_key <$> t) →
  NoDup (user_key <$> foldl (λ t r, insert_or_replace r t) t rows).
Proof.
  revert t. induction rows as [|r rows IH]; intros t H; [done|].
  cbn [foldl]. by apply IH, insert_or_replace_NoDup.
Qed.

(** What [save_users_to_db] returns, by the outcome of its one
    [executemany]. *)
Lemma save_users_to_db_spec (users : list user) (ip : string) (db : database) :
  let batch := InsertOrReplaceUser <$> (normalize_user ip <$> users) in
  save_users_to_db users ip db
  = if forallb bindable batch
    then (run_all batch db, UsersSaved (length users))
    else (db, ErrorSavingUsers OverflowError).
Proof.
  intros batch. unfold save_users_to_db, executemany. fold batch.
  set (c := {| conn_committed := conn_committed (connect db);
               conn_working := conn_working (connect db);
               conn_autocommit := conn_autocommit (connect db);
               conn_calls := conn_calls (connect db) ++ [batch] |}).
  pose proof (run_statements_outcome batch c) as Hout.
  pose proof (run_statements_working batch c) as Hwork.
  pose proof (run_statements_uncommitted batch c eq_refl) as Hunc.
  destruct (run_statements batch c) as [[[]|e] c'] eqn:E; simpl in *;
    destruct (forallb bindable batch) eqn:Hb; try discriminate.
  - unfold close, commit. simpl. rewrite Hwork, executed_all by done.
    by rewrite length_fmap.
  - unfold close. rewrite Hunc. by inversion Hout.
Qed.

Lemma filter_normalize_key (ip : string) (users : list user) (uid : Z) :
  filter (λ r', user_key r' = (ip, uid)) (normalize_user ip <$> users)
  = normalize_user ip <$> filter (λ u', user_uid u' = uid) users.
Proof.
  induction users as [|u users IH]; [done|].
  rewrite fmap_cons, !filter_cons, IH.
  destruct (decide (user_uid u = uid)) as [H|H].
  - rewrite decide_True; [done|]. unfold user_key. simpl. by rewrite H.
  - rewrite decide_False; [done|]. unfold user_key. simpl. congruence.
Qed.

(** C3 -- When a batch of users is saved (no row fails to bind), then for
    every user of the batch the table holds exactly one row under the key
    (device_ip, uid), whatever it held under that key before, and that row
    carries the fields of the last user of the batch with this uid: replace
    on conflict, last write wins.  No two rows of the table share a key if
    none did before. *)
Theorem user_upsert_supersedes (users : list user) (ip : string)
    (db : database) (u : user) :
  forallb bindable (InsertOrReplaceUser <$> (normalize_user ip <$> users)) = true →
  u ∈ users →
  let out := save_users_to_db users ip db in
  ∃ newest : user,
    last (filter (λ u', user_uid u' = user_uid u) users) = Some newest
    ∧ filter (λ r, user_key r = (ip, user_uid u)) (db_users (fst out))
      = [normalize_user ip newest]
    ∧ snd out = UsersSaved (length users)
    ∧ (NoDup (user_key <$> db_users db) → NoDup (user_key <$> db_users (fst out))).
Proof.
  intros Hbind Hu out. subst out.
  pose proof (save_users_to_db_spec users ip db) as Hspec. cbn zeta in Hspec.
  rewrite Hbind in Hspec. rewrite Hspec, run_all_users. cbn [fst snd db_users].
  assert (Hne : filter (λ u', user_uid u' = user_uid u) users ≠ []).
  { intros E. assert (u ∈ filter (λ u', user_uid u' = user_uid u) users) as Hin
      by by apply list_elem_of_filter.
    rewrite E in Hin. by apply elem_of_nil in Hin. }
  destruct (last (filter (λ u', user_uid u' = user_uid u) users)) as [newest|] eqn:El.
  2: { by apply last_None in El. }
  exists newest. split; [done|]. split; [|split; [done|apply upserts_NoDup]].
  rewrite upserts_key, filter_normalize_key, fmap_last, El. done.
Qed.

(** C10 -- [save_users_to_db] is all or nothing: when a row of the batch
    does not bind, the call reports the error and leaves the database file
    exactly as it found it, the rows written before the failing one
    included; otherwise the file holds the whole batch and the call reports
    one saved row per user.  [save_attendance_to_db] differs: whatever one
    of its inserts executed is in the table at the end, also when that or
    another chunk fails. *)
Theorem user_upsert_all_or_nothing (users : list user) (ip : string)
    (db : database) :
  let batch := InsertOrReplaceUser <$> (normalize_user ip <$> users) in
  (forallb bindable batch = false →
   fst (executemany batch (connect db)) = Raise OverflowError
   ∧ save_users_to_db users ip db = (db, ErrorSavingUsers OverflowError))
  ∧ (forallb bindable batch = true →
     save_users_to_db users ip db = (run_all batch db, UsersSaved (length users)))
  ∧ (∀ (atts : list attendance) (d : gmap pyval string) (r : att_row),
       InsertOrIgnoreAttendance r
         ∈ writes (conn_calls (sa_conn (save_attendance_run atts ip d db))) →
       att_key r ∈ attendance_keys (fst (save_attendance_to_db atts ip d db))).
Proof.
  intros batch. pose proof (save_users_to_db_spec users ip db) as H.
  cbn zeta in H. fold batch in H.
  split; [|split].
  - intros Hb. rewrite executemany_outcome. by rewrite Hb in H |- *.
  - intros Hb. by rewrite Hb in H.
  - intros atts d r Hr.
    pose proof (save_attendance_run_effect atts ip d db) as (Hcalls & _).
    cbn zeta in Hcalls. rewrite Hcalls in Hr.
    rewrite save_attendance_db. by apply written_persisted.
Qed.

End Users.

(* ===================================================================== *)
(** * 14. The fleet loops                                                 *)
(* ===================================================================== *)

Section Fleet.
Implicit Types (net : network) (d : device) (st : fleet_state).

Ltac run_body :=
  unfold sync_users_step, sync_attendance_step, try_except, sync_users_body,
    sync_attendance_body, zk_connect, device_call, count_success, on_database,
    record_failure, attempted, users_success, users_raises, users_fetched,
    users_fetch_fails, attendance_success, attendance_raises,
    attendance_fetched, attendance_fetch_fails, release_fails,
    mbind, M_bind, mret, M_ret;
  cbn beta iota zeta.

Ltac tidy :=
  cbn [fs_db fs_calls fs_total fs_success fs_failed length orb];
  rewrite ?List.filter_app; cbn [List.filter is_connect];
  rewrite ?app_nil_r, <- ?app_assoc; cbn [app];
  rewrite ?app_nil_r, ?Nat.add_0_r, ?Nat.add_1_r.

(** One iteration of the user sync, by what it adds to the state. *)
Lemma sync_users_step_spec net st d :
  let st' := sync_users_step net st d in
  attempted st' = attempted st ++ [Connect (dev_ip d)]
  ∧ fs_success st' = fs_success st + (if users_success net d then 1 else 0)
  ∧ fs_total st' = fs_total st + length (users_fetched net d)
  ∧ fs_failed st'
    = fs_failed st ++ (if users_raises net d then [device_label d] else []).
Proof.
  unfold sync_users_step, sync_users_body.
  generalize save_users_to_db. intros save.
  run_body. destruct (dev_ip d) as [ip|]; [|by tidy].
  destruct (ses_connect (net ip)) as [[]|e1]; [|by tidy].
  destruct (ses_disable_device (net ip)) as [[]|e2]; [|by tidy].
  destruct (ses_get_users (net ip)) as [[|u us]|e3]; [| |by tidy];
    cbn [fs_db fs_calls fs_total fs_success fs_failed].
  - destruct (ses_enable_device (net ip)) as [[]|e4];
      destruct (ses_disconnect (net ip)) as [[]|e5]; by tidy.
  - destruct (ses_enable_device (net ip)) as [[]|e4];
      destruct (ses_disconnect (net ip)) as [[]|e5]; by tidy.
Qed.

(** One iteration of the attendance sync. *)
Lemma sync_attendance_step_spec net st d :
  let st' := sync_attendance_step net st d in
  attempted st' = attempted st ++ [Connect (dev_ip d)]
  ∧ fs_success st' = fs_success st + (if attendance_success net d then 1 else 0)
  ∧ fs_total st' = fs_total st + length (attendance_fetched net d)
  ∧ fs_failed st'
    = fs_failed st ++ (if attendance_raises net d then [device_label d] else []).
Proof.
  unfold sync_attendance_step, sync_attendance_body.
  generalize save_attendance_to_db, build_users_dict. intros save build.
  run_body. destruct (dev_ip d) as [ip|]; [|by tidy].
  destruct (ses_connect (net ip)) as [[]|e1]; [|by tidy].
  destruct (ses_disable_device (net ip)) as [[]|e2]; [|by tidy].
  destruct (ses_get_users (net ip)) as [us|e3]; [|by tidy].
  destruct (ses_get_attendance (net ip)) as [[|a atts]|e3']; [| |by tidy];
    cbn [fs_db fs_calls fs_total fs_success fs_failed].
  - destruct (ses_enable_device (net ip)) as [[]|e4];
      destruct (ses_disconnect (net ip)) as [[]|e5]; by tidy.
  - destruct (ses_enable_device (net ip)) as [[]|e4];
      destruct (ses_disconnect (net ip)) as [[]|e5]; by tidy.
Qed.

Lemma count_true_app {A} (f : A → bool) (l k : list A) :
  count_true f (l ++ k) = count_true f l + count_true f k.
Proof. unfold count_true. by rewrite List.filter_app, length_app. Qed.

(** The user sync over a list of devices: every device is attempted, in
    order, and the three locals add up device by device. *)
Lemma sync_users_fold net ds st :
  let st' := foldl (sync_users_step net) st ds in
  attempted st' = attempted st ++ connects ds
  ∧ fs_success st' = fs_success st + users_successes net ds
  ∧ fs_total st' = fs_total st + users_total net ds
  ∧ fs_failed st' = fs_failed st ++ users_failures net ds.
Proof.
  revert st. induction ds as [|d ds IH]; intros st.
  { cbn. rewrite !app_nil_r. repeat split; lia. }
  cbn [foldl]. destruct (IH (sync_users_step net st d)) as (Ha & Hs & Ht & Hf).
  destruct (sync_users_step_spec net st d) as (Ha1 & Hs1 & Ht1 & Hf1).
  cbn zeta. rewrite Ha, Hs, Ht, Hf, Ha1, Hs1, Ht1, Hf1.
  unfold connects, users_successes, users_total, users_failures, count_true.
  cbn [fmap list_fmap List.filter sum_list sum_list_with].
  repeat split.
  - by rewrite <- app_assoc.
  - destruct (users_success net d); simpl; lia.
  - unfold id. lia.
  - destruct (users_raises net d); by rewrite <- app_assoc.
Qed.

Lemma sync_attendance_fold net ds st :
  let st' := foldl (sync_attendance_step net) st ds in
  attempted st' = attempted st ++ connects ds
  ∧ fs_success st' = fs_success st + attendance_successes net ds
  ∧ fs_total st' = fs_total st + attendance_total net ds
  ∧ fs_failed st' = fs_failed st ++ attendance_failures net ds.
Proof.
  revert st. induction ds as [|d ds IH]; intros st.
  { cbn. rewrite !app_nil_r. repeat split; lia. }
  cbn [foldl]. destruct (IH (sync_attendance_step net st d)) as (Ha & Hs & Ht & Hf).
  destruct (sync_attendance_step_spec net st d) as (Ha1 & Hs1 & Ht1 & Hf1).
  cbn zeta. rewrite Ha, Hs, Ht, Hf, Ha1, Hs1, Ht1, Hf1.
  unfold connects, attendance_successes, attendance_total, attendance_failures,
    count_true.
  cbn [fmap list_fmap List.filter sum_list sum_list_with].
  repeat split.
  - by rewrite <- app_assoc.
  - destruct (attendance_success net d); simpl; lia.
  - unfold id. lia.
  - destruct (attendance_raises net d); by rewrite <- app_assoc.
Qed.

(** A device on which the fetch fails adds its label and nothing else. *)
Lemma users_fetch_fails_counts net d :
  users_fetch_fails net d = true →
  users_success net d = false ∧ users_fetched net d = []
  ∧ users_raises net d = true.
Proof.
  intros H. unfold users_success, users_fetched, users_raises. by rewrite H.
Qed.

Lemma attendance_fetch_fails_counts net d :
  attendance_fetch_fails net d = true →
  attendance_success net d = false ∧ attendance_fetched net d = []
  ∧ attendance_raises net d = true.
Proof.
  intros H. unfold attendance_success, attendance_fetched, attendance_raises.
  by rewrite H.
Qed.

(** C2 -- In both fleet loops, a device whose connection or fetch fails
    stops nothing: every device of the list, those after it included, is
    attempted in order; the failing device is recorded among the failed
    devices by name and ip, after the failures before it and before the
    failures after it; the success count and the total are those of the
    devices before it plus those of the devices after it. *)
Theorem fault_isolation (net : network) (pre : list device) (d : device)
    (post : list device) (db : database) :
  (users_fetch_fails net d = true →
   let st := sync_all_devices_users net (pre ++ d :: post) db in
   let st_pre := sync_all_devices_users net pre db in
   attempted st = connects pre ++ [Connect (dev_ip d)] ++ connects post
   ∧ fs_failed st
     = fs_failed st_pre ++ [device_label d] ++ users_failures net post
   ∧ fs_success st = fs_success st_pre + users_successes net post
   ∧ fs_total st = fs_total st_pre + users_total net post
   ∧ rep_devices (report_of (pre ++ d :: post) st)
     = length pre + 1 + length post)
  ∧ (attendance_fetch_fails net d = true →
     let st := sync_all_devices_attendance net (pre ++ d :: post) db in
     let st_pre := sync_all_devices_attendance net pre db in
     attempted st = connects pre ++ [Connect (dev_ip d)] ++ connects post
     ∧ fs_failed st
       = fs_failed st_pre ++ [device_label d] ++ attendance_failures net post
     ∧ fs_success st = fs_success st_pre + attendance_successes net post
     ∧ fs_total st = fs_total st_pre + attendance_total net post
     ∧ rep_devices (report_of (pre ++ d :: post) st)
       = length pre + 1 + length post).
Proof.
  split; intros Hfail st st_pre; subst st st_pre.
  - unfold sync_all_devices_users. rewrite foldl_app. cbn [foldl].
    set (s0 := foldl (sync_users_step net) (fleet_start db) pre).
    destruct (sync_users_fold net pre (fleet_start db)) as (Ha0 & _).
    destruct (sync_users_step_spec net s0 d) as (Ha1 & Hs1 & Ht1 & Hf1).
    destruct (sync_users_fold net post (sync_users_step net s0 d))
      as (Ha & Hs & Ht & Hf).
    destruct (users_fetch_fails_counts net d Hfail) as (E1 & E2 & E3).
    cbn zeta in *. rewrite E1, E2, E3 in *. fold s0 in Ha0.
    rewrite Ha, Hs, Ht, Hf, Ha1, Hs1, Ht1, Hf1, Ha0.
    cbn [report_of rep_devices length]. rewrite length_app. cbn [length].
    repeat split; try lia; by rewrite <- ?app_assoc.
  - unfold sync_all_devices_attendance. rewrite foldl_app. cbn [foldl].
    set (s0 := foldl (sync_attendance_step net) (fleet_start db) pre).
    destruct (sync_attendance_fold net pre (fleet_start db)) as (Ha0 & _).
    destruct (sync_attendance_step_spec net s0 d) as (Ha1 & Hs1 & Ht1 & Hf1).
    destruct (sync_attendance_fold net post (sync_attendance_step net s0 d))
      as (Ha & Hs & Ht & Hf).
    destruct (attendance_fetch_fails_counts net d Hfail) as (E1 & E2 & E3).
    cbn zeta in *. rewrite E1, E2, E3 in *. fold s0 in Ha0.
    rewrite Ha, Hs, Ht, Hf, Ha1, Hs1, Ht1, Hf1, Ha0.
    cbn [report_of rep_devices length]. rewrite length_app. cbn [length].
    repeat split; try lia; by rewrite <- ?app_assoc.
Qed.

(** When a fetch raises, the iteration ends in the handler: neither
    [enable_device()] nor [disconnect()] is called. *)
Lemma users_fetch_raise_skips_release net st d ip e :
  dev_ip d = Some ip →
  ses_connect (net ip) = Ok tt → ses_disable_device (net ip) = Ok tt →
  ses_get_users (net ip) = Raise e →
  fs_calls (sync_users_step net st d)
  = fs_calls st ++ [Connect (Some ip); DisableDevice ip; GetUsers ip].
Proof.
  intros Hip Hc Hd Hg. run_body. rewrite Hip. cbn beta iota zeta.
  rewrite Hc, Hd, Hg. cbn. by rewrite <- !app_assoc.
Qed.

Lemma attendance_fetch_raise_skips_release net st d ip us e :
  dev_ip d = Some ip →
  ses_connect (net ip) = Ok tt → ses_disable_device (net ip) = Ok tt →
  ses_get_users (net ip) = Ok us → ses_get_attendance (net ip) = Raise e →
  fs_calls (sync_attendance_step net st d)
  = fs_calls st
    ++ [Connect (Some ip); DisableDevice ip; GetUsers ip; GetAttendance ip].
Proof.
  intros Hip Hc Hd Hg Ha. run_body. rewrite Hip. cbn beta iota zeta.
  rewrite Hc, Hd, Hg, Ha. cbn. by rewrite <- !app_assoc.
Qed.

(** When the release raises after a successful fetch, the device is
    counted as a success and listed as failed. *)
Lemma users_release_raise_recorded net st d ip u us e :
  dev_ip d = Some ip →
  ses_connect (net ip) = Ok tt → ses_disable_device (net ip) = Ok tt →
  ses_get_users (net ip) = Ok (u :: us) →
  ses_enable_device (net ip) = Raise e →
  fs_success (sync_users_step net st d) = S (fs_success st)
  ∧ fs_failed (sync_users_step net st d) = fs_failed st ++ [device_label d].
Proof.
  intros Hip Hc Hd Hg He. run_body. rewrite Hip. cbn beta iota zeta.
  rewrite Hc, Hd, Hg. cbn beta iota zeta. by rewrite He.
Qed.

(** [simple.py] releases on every path: once [connect()] has returned,
    [fetch_device_snapshot] ends with [enable_device()] and
    [disconnect()], whatever was raised in between, and a failure of
    [enable_device()] does not change what it returns. *)
Lemma fetch_device_snapshot_releases net (entry : device) st :
  let ip := snapshot_address entry in
  ip ≠ "" → ses_connect (net ip) = Ok tt →
  ∃ mid, fs_calls (snd (fetch_device_snapshot net entry st))
         = fs_calls st ++ [Connect (Some ip)] ++ mid
           ++ [EnableDevice ip; Disconnect ip].
Proof.
  intros ip Hne Hc. unfold fetch_device_snapshot. fold ip.
  destruct (String.eqb ip "") eqn:E; [by apply String.eqb_eq in E|].
  unfold device_call, mbind, M_bind. cbn beta iota zeta. rewrite Hc.
  destruct (ses_set_sdk_build_1 (net ip)) as [[]|e1];
    [destruct (ses_disable_device (net ip)) as [[]|e2];
      [destruct (ses_device_info (net ip)) as [info|e3]|]|];
    destruct (ses_disconnect (net ip)) as [[]|e5]; cbn;
    rewrite <- ?app_assoc; cbn [app].
  all: try (by exists [SetSdkBuild1 ip; DisableDevice ip; ReadDeviceInfo ip]).
  all: try (by exists [SetSdkBuild1 ip; DisableDevice ip]).
  all: by exists [SetSdkBuild1 ip].
Qed.

End Fleet.

(* ===================================================================== *)
(** * 15. Name resolution, live capture, user normalisation               *)
(* ===================================================================== *)

Section Resolver.
Implicit Types (d : gmap pyval string).

Lemma dict_get_empty d key :
  dict_get d key = "" ↔ ¬ has_name d key.
Proof.
  unfold dict_get, has_name. destruct (d !! PStr key) as [n|]; simpl.
  - split.
    + intros -> (n' & [= <-] & Hn). done.
    + intros H. destruct (decide (n = "")) as [->|Hn]; [done|].
      exfalso. apply H. by exists n.
  - split; [|done]. intros _ (n' & [=] & _).
Qed.

Lemma str_or_empty a b : str_or a b = "" ↔ a = "" ∧ b = "".
Proof.
  unfold str_or. destruct (String.eqb a "") eqn:E.
  - apply String.eqb_eq in E. subst. by split; [|intros [_ ?]].
  - apply String.eqb_neq in E. split; [done|by intros [? _]].
Qed.

(** The last user written to the index is found under both of its keys. *)
Lemma build_users_dict_last (users : list user) (u : user) :
  let d := build_users_dict (users ++ [u]) in
  d !! user_id_key u = Some (or_empty (user_name u))
  ∧ (user_id_key u ≠ PStr (pretty (user_uid u)) →
     d !! PStr (pretty (user_uid u)) = Some (or_empty (user_name u))).
Proof.
  unfold build_users_dict. rewrite foldl_app. cbn [foldl]. unfold index_user.
  split.
  - by rewrite lookup_insert_eq.
  - intros Hne. rewrite lookup_insert_ne by done. by rewrite lookup_insert_eq.
Qed.

(** C7 -- Name resolution looks under the uid key first and returns the
    name found there when it is not empty; when that key is absent or holds
    an empty name it returns what the user_id key holds, or the empty
    string.  So a non-empty name under either key gives a non-empty result,
    and the result is empty exactly when neither key holds a non-empty name.
    It is the lookup both [save_attendance_to_db] and the live capture use,
    and it is total. *)
Theorem resolver_fallback (d : gmap pyval string) (uid_key user_id : string) :
  (∀ n, d !! PStr uid_key = Some n → n ≠ "" →
        resolve_name d uid_key user_id = n)
  ∧ (¬ has_name d uid_key →
     resolve_name d uid_key user_id = default "" (d !! PStr user_id))
  ∧ (has_name d uid_key ∨ has_name d user_id →
     resolve_name d uid_key user_id ≠ "")
  ∧ (resolve_name d uid_key user_id = ""
     ↔ ¬ has_name d uid_key ∧ ¬ has_name d user_id)
  ∧ (∀ ip att row, normalize_attendance ip d att = Some row →
       ar_name row = resolve_name d (pretty (ar_uid row)) (ar_user_id row))
  ∧ (∀ n att, capture_row d n att !! 3
       = Some (resolve_name d (str (getattr (att_uid att) (PStr "")))
                 (str (getattr (att_user_id att) (PStr ""))))).
Proof.
  assert (Hiff : resolve_name d uid_key user_id = ""
                 ↔ ¬ has_name d uid_key ∧ ¬ has_name d user_id).
  { unfold resolve_name. rewrite str_or_empty. by rewrite !dict_get_empty. }
  split; [|split; [|split; [|split; [exact Hiff|split]]]].
  - intros n Hn Hne. unfold resolve_name, str_or, dict_get. rewrite Hn. simpl.
    apply String.eqb_neq in Hne. by rewrite Hne.
  - intros Hno. apply dict_get_empty in Hno.
    unfold resolve_name, str_or. by rewrite Hno.
  - intros H Hres. apply Hiff in Hres as [H1 H2]. by destruct H.
  - intros ip att row H. unfold normalize_attendance in H.
    destruct (att_user_id att), (att_timestamp att); try done.
    destruct (String.eqb _ _); [done|]. by inversion H.
  - intros n att. reflexivity.
Qed.

End Resolver.

Section LiveCapture.

Lemma capture_loop_count d turns st :
  captured_events (capture_loop d turns st)
  = captured_events st + length (events_before_quit turns)
  ∧ counter (capture_loop d turns st)
    = counter st + length (events_before_quit turns).
Proof.
  revert st. induction turns as [|[key att] turns IH]; intros st.
  { simpl. lia. }
  simpl. destruct (quit_key key); [simpl; lia|].
  destruct att as [a|]; [|apply IH].
  destruct (IH (show_event d a st)) as [H1 H2]. rewrite H1, H2. simpl. lia.
Qed.

(** C8 -- Each turn of the capture loop looks at the keyboard before it
    touches the element the generator yielded: when the quit key is found
    the loop ends at once, the element of that turn and everything after it
    left aside; a timeout sentinel changes nothing.  The count of captured
    events is the number of real events yielded before the first turn that
    finds the quit key.  In a run of five timeouts, one event, then a turn
    that finds the quit key, one event is counted and one row, with the
    resolved name, is shown under the header line. *)
Theorem live_capture_cancellation (users : list user) (e : attendance)
    (x : option attendance) (rest turns : list capture_turn)
    (key : option ascii) (st : capture_state) :
  let d := build_users_dict users in
  (quit_key key = true → capture_loop d ((key, x) :: turns) st = st)
  ∧ capture_loop d ((None, None) :: turns) st = capture_loop d turns st
  ∧ captured_events (live_capture_interactive turns users)
    = length (events_before_quit turns)
  ∧ (let scenario := replicate 5 (None, None)
                     ++ [(None, Some e); (Some "q"%char, x)] ++ rest in
     let out := live_capture_interactive scenario users in
     captured_events out = 1
     ∧ counter out = 1
     ∧ shown out = [capture_headers; capture_row d 1 e]).
Proof.
  intros d. split; [|split; [|split]].
  - intros H. simpl. by rewrite H.
  - reflexivity.
  - unfold live_capture_interactive.
    destruct (capture_loop_count (build_users_dict users) turns
                {| counter := 0; captured_events := 0; shown := [] |}) as [H _].
    by rewrite H.
  - cbn zeta. unfold live_capture_interactive. fold d. simpl. done.
Qed.

End LiveCapture.

Section UserNormalisation.

Lemma admin_label_ne : "Admin" ≠ "User".
Proof. discriminate. Qed.

(** C9 -- In [save_users_to_db] a user is labelled "Admin" exactly when its
    raw privilege equals [USER_ADMIN] (14), and "User" for every other
    value, smaller or larger.  In [collect_user_rows] of [simple.py] a user
    is labelled "User" exactly when its privilege equals [USER_DEFAULT] (0).
    Normalisation is total: one row per user; [name], [password],
    [group_id] and [user_id] are the empty string when they are [None];
    [card] is the empty string when the attribute is absent or falsy and
    [str(card)] otherwise; [uid] and the device address are passed on. *)
Theorem normalize_user_spec (ip : string) (u : user) (users : list user) :
  let r := normalize_user ip u in
  (ur_privilege r = "Admin" ↔ user_privilege u = const.USER_ADMIN)
  ∧ (ur_privilege r = "User" ↔ user_privilege u ≠ const.USER_ADMIN)
  ∧ (collect_privilege u = "User" ↔ user_privilege u = const.USER_DEFAULT)
  ∧ ur_name r = default "" (user_name u)
  ∧ ur_password r = default "" (user_password u)
  ∧ ur_group_id r = default "" (user_group_id u)
  ∧ ur_user_id r = default "" (user_user_id u)
  ∧ ur_card r = match user_card u with
                | Some c => if truthy c then str c else ""
                | None => ""
                end
  ∧ ur_uid r = user_uid u ∧ ur_device_ip r = ip
  ∧ length (normalize_user ip <$> users) = length users.
Proof.
  intros r. subst r. unfold normalize_user, collect_privilege. simpl.
  repeat split; try (by destruct u as [? [] ? [] [] [] ?]); try apply length_fmap.
  - destruct (Z.eqb_spec (user_privilege u) const.USER_ADMIN); [done|discriminate].
  - by intros ->.
  - destruct (Z.eqb_spec (user_privilege u) const.USER_ADMIN); [discriminate|done].
  - intros H. by destruct (Z.eqb_spec (user_privilege u) const.USER_ADMIN).
  - destruct (Z.eqb_spec (user_privilege u) const.USER_DEFAULT); [done|discriminate].
  - by intros ->.
Qed.

End UserNormalisation.

(* ===================================================================== *)
(** * 16. The statements on sample data                                   *)
(* ===================================================================== *)

(** A batch that holds the same key twice: the second record is ignored by
    the store, and counted neither as a skip nor as an error. *)
Example duplicate_in_batch :
  save_attendance_to_db
    [punch (PInt 1) "E1" "2024-05-02 08:00:00";
     punch (PInt 1) "E1" "2024-05-02 12:00:00";
     punch (PInt 1) "E1" "2024-05-02 08:00:00"]
    "10.0.0.5" (build_users_dict [alice]) empty_database
  = ({| db_attendance :=
          [{| ar_device_ip := "10.0.0.5"; ar_uid := 1; ar_user_id := "E1";
              ar_name := "Alice"; ar_timestamp := "2024-05-02 08:00:00";
              ar_status := 0; ar_punch := 1 |};
           {| ar_device_ip := "10.0.0.5"; ar_uid := 1; ar_user_id := "E1";
              ar_name := "Alice"; ar_timestamp := "2024-05-02 12:00:00";
              ar_status := 0; ar_punch := 1 |}];
        db_users := [] |},
     Some {| inserted := 3; skipped := 0; errors := 0 |}).
Proof. vm_compute. reflexivity. Qed.

(** The first statement of C1 at a batch with a duplicate, a malformed uid
    and an empty [user_id]. *)
Lemma attendance_resync_idempotent_witness :
  let atts := [punch (PInt 1) "E1" "2024-05-02 08:00:00";
               punch (PStr "abc") "E5" "2024-05-02 08:01:00";
               punch (PInt 1) "E1" "2024-05-02 08:00:00";
               punch (PInt 2) "  " "2024-05-02 08:02:00"] in
  let d := build_users_dict [alice; nameless] in
  let once := save_attendance_to_db atts "10.0.0.5" d empty_database in
  let twice := save_attendance_to_db atts "10.0.0.5" d (fst once) in
  fst twice = fst once
  ∧ length (db_attendance (fst once)) = 2
  ∧ snd twice = Some {| inserted := 3; skipped := 1; errors := 0 |}.
Proof.
  intros atts d once twice.
  destruct (attendance_resync_idempotent atts "10.0.0.5" d empty_database)
    as (H1 & _ & H3 & _).
  split; [exact H1|]. split; [vm_compute; reflexivity|].
  fold once twice in H3. rewrite H3. vm_compute. reflexivity.
Defined.

(** C6 at [long_batch]: three chunks, the second fails on its first row. *)
Lemma chunk_failure_contained_witness :
  let rows := accepted_rows "10.0.0.5" ∅ long_batch in
  let pre := [take 1000 rows] in
  let c := take 1000 (drop 1000 rows) in
  let post := [drop 2000 rows] in
  chunks BATCH_SIZE rows = pre ++ c :: post
  ∧ chunk_ok c = false
  ∧ snd (save_attendance_to_db long_batch "10.0.0.5" ∅ empty_database)
    = Some {| inserted := 1001; skipped := 0; errors := 1000 |}.
Proof.
  intros rows pre c post.
  assert (H1 : chunks BATCH_SIZE rows = pre ++ c :: post)
    by (vm_compute; reflexivity).
  assert (H2 : chunk_ok c = false) by (vm_compute; reflexivity).
  split; [exact H1|]. split; [exact H2|].
  destruct (chunk_failure_contained long_batch "10.0.0.5" ∅ empty_database
              pre c post H1 H2) as (_ & _ & H & _).
  rewrite H. vm_compute. reflexivity.
Defined.

(** C4 as stated fails at a record that has a [user_id] and no
    [timestamp]: it is not one of the records with a missing or empty
    [user_id], and still it does not reach the batch; it is skipped. *)
Lemma skip_without_timestamp :
  user_id_missing_or_empty punch_without_timestamp = false
  ∧ save_attendance_to_db [punch_without_timestamp] "10.0.0.5" ∅ empty_database
    = (empty_database, Some {| inserted := 0; skipped := 1; errors := 0 |})
  ∧ accepted_rows "10.0.0.5" ∅ [punch_without_timestamp] = [].
Proof. vm_compute. repeat split; reflexivity. Qed.

(** The skip law at a record with a blank [user_id] and at one with a
    malformed uid. *)
Lemma skip_law_witness :
  let d := build_users_dict [alice] in
  let st := {| sa_conn := set_isolation_level_None (connect empty_database);
               sa_batch := []; sa_inserted := 0; sa_errors := 0;
               sa_skipped := 0 |} in
  user_id_missing_or_empty (punch (PInt 1) " " "t") = true
  ∧ process_record "10.0.0.5" d st (punch (PInt 1) " " "t") = skip_record st
  ∧ sa_batch (process_record "10.0.0.5" d st (punch (PStr "abc") "E1" "t"))
    = [{| ar_device_ip := "10.0.0.5"; ar_uid := 0; ar_user_id := "E1";
          ar_name := "Alice"; ar_timestamp := "t"; ar_status := 0;
          ar_punch := 1 |}].
Proof.
  intros d st.
  destruct (skip_law "10.0.0.5" d (punch (PInt 1) " " "t") st [] empty_database)
    as (H1 & _).
  split; [reflexivity|]. split; [exact (H1 eq_refl)|].
  vm_compute. reflexivity.
Defined.

(** C3 at a re-sync: [alice] is in the table, the new batch carries her
    edited record. *)
Lemma user_upsert_supersedes_witness :
  let db := fst (save_users_to_db [alice] "10.0.0.5" empty_database) in
  let out := save_users_to_db [alice_renamed; nameless] "10.0.0.5" db in
  db_users db = [normalize_user "10.0.0.5" alice]
  ∧ filter (λ r, user_key r = ("10.0.0.5", 1%Z)) (db_users (fst out))
    = [normalize_user "10.0.0.5" alice_renamed]
  ∧ length (db_users (fst out)) = 2.
Proof.
  intros db out.
  assert (Hb : forallb bindable
                 (InsertOrReplaceUser
                    <$> (normalize_user "10.0.0.5" <$> [alice_renamed; nameless]))
               = true) by reflexivity.
  assert (Hin : alice_renamed ∈ [alice_renamed; nameless]) by left.
  destruct (user_upsert_supersedes [alice_renamed; nameless] "10.0.0.5" db
              alice_renamed Hb Hin) as (newest & Hl & Hf & _).
  vm_compute in Hl. injection Hl as <-.
  split; [vm_compute; reflexivity|]. split; [exact Hf|].
  vm_compute. reflexivity.
Defined.

(** C10 on sample data: a batch of users with one uid that does not bind
    leaves the file untouched, the user before it included; an attendance
    batch with one such uid keeps the row before it. *)
Lemma user_upsert_all_or_nothing_witness :
  let db := fst (save_users_to_db [alice] "10.0.0.5" empty_database) in
  save_users_to_db [nameless; oversized; alice_renamed] "10.0.0.5" db
  = (db, ErrorSavingUsers OverflowError)
  ∧ save_attendance_to_db
      [punch (PInt 1) "E1" "t1"; punch (PInt (2 ^ 63)) "E1" "t2";
       punch (PInt 1) "E1" "t3"] "10.0.0.5" ∅ empty_database
    = ({| db_attendance :=
            [{| ar_device_ip := "10.0.0.5"; ar_uid := 1; ar_user_id := "E1";
                ar_name := ""; ar_timestamp := "t1"; ar_status := 0;
                ar_punch := 1 |}];
          db_users := [] |},
       Some {| inserted := 0; skipped := 0; errors := 3 |}).
Proof.
  intros db.
  destruct (user_upsert_all_or_nothing [nameless; oversized; alice_renamed]
              "10.0.0.5" db) as (H & _).
  split; [exact (proj2 (H eq_refl))|]. vm_compute. reflexivity.
Defined.

(** C2 on three devices, the second of which cannot be reached. *)
Lemma fault_isolation_witness :
  let a := gate "Gate-A" "10.0.0.5" in
  let b := gate "Gate-B" "10.0.0.6" in
  let c := gate "Gate-C" "10.0.0.7" in
  let st := sync_all_devices_users sample_network [a; b; c] empty_database in
  let st' := sync_all_devices_attendance sample_network [a; b; c] empty_database in
  users_fetch_fails sample_network b = true
  ∧ attendance_fetch_fails sample_network b = true
  ∧ attempted st = [Connect (Some "10.0.0.5"); Connect (Some "10.0.0.6");
                    Connect (Some "10.0.0.7")]
  ∧ fs_failed st = ["Gate-B (10.0.0.6)"]
  ∧ fs_success st = 2 ∧ fs_total st = 3
  ∧ fs_failed st' = ["Gate-B (10.0.0.6)"]
  ∧ fs_success st' = 2 ∧ fs_total st' = 3.
Proof.
  intros a b c st st'.
  destruct (fault_isolation sample_network [a] b [c] empty_database) as [Hu Ha].
  specialize (Hu eq_refl). specialize (Ha eq_refl). cbn zeta in Hu, Ha.
  destruct Hu as (U1 & U2 & U3 & U4 & _). destruct Ha as (_ & A2 & A3 & A4 & _).
  change ([a] ++ b :: [c]) with [a; b; c] in *. fold st in U1, U2, U3, U4.
  fold st' in A2, A3, A4.
  rewrite U1, U2, U3, U4, A2, A3, A4. vm_compute. repeat split; reflexivity.
Defined.

(** C5 fails on the code: in the fleet loops the release is the tail of the
    [try] block.  A device whose [get_users()] (or [get_attendance()])
    raises is left disabled and connected: no [enable_device()], no
    [disconnect()] follows.  A device whose [enable_device()] raises after
    its users were saved is counted as a success and listed as failed. *)
Theorem release_skipped_on_fetch_failure :
  fs_calls (sync_all_devices_users sample_network [gate "Gate-D" "10.0.0.8"]
              empty_database)
  = [Connect (Some "10.0.0.8"); DisableDevice "10.0.0.8"; GetUsers "10.0.0.8"]
  ∧ fs_calls (sync_all_devices_attendance sample_network
                [gate "Gate-D" "10.0.0.8"] empty_database)
    = [Connect (Some "10.0.0.8"); DisableDevice "10.0.0.8"; GetUsers "10.0.0.8"]
  ∧ (let st := sync_all_devices_users sample_network [gate "Gate-E" "10.0.0.9"]
                 empty_database in
     fs_calls st = [Connect (Some "10.0.0.9"); DisableDevice "10.0.0.9";
                    GetUsers "10.0.0.9"; EnableDevice "10.0.0.9"]
     ∧ fs_success st = 1 ∧ fs_total st = 1
     ∧ fs_failed st = ["Gate-E (10.0.0.9)"]
     ∧ db_users (fs_db st) = [normalize_user "10.0.0.9" alice])
  ∧ (let out := fetch_device_snapshot sample_network (gate "Gate-E" "10.0.0.9")
                  (fleet_start empty_database) in
     fst out = Ok ([], NoError)
     ∧ fs_calls (snd out)
       = [Connect (Some "10.0.0.9"); SetSdkBuild1 "10.0.0.9";
          DisableDevice "10.0.0.9"; ReadDeviceInfo "10.0.0.9";
          EnableDevice "10.0.0.9"; Disconnect "10.0.0.9"]).
Proof. vm_compute. repeat split; reflexivity. Qed.

(** C7 as stated fails at a user registered without a name: both keys of
    the event are in the index, and the result is the empty string. *)
Lemma resolver_empty_name :
  let d := build_users_dict [nameless] in
  d !! PStr "5" = Some "" ∧ d !! PStr "E5" = Some ""
  ∧ resolve_name d "5" "E5" = "".
Proof. vm_compute. repeat split; reflexivity. Qed.

(** The resolver on an index with names: the uid key wins, the user_id key
    is the fallback, also behind a uid key that holds an empty name. *)
Lemma resolver_fallback_witness :
  let d := build_users_dict [alice; nameless] in
  resolve_name d "1" "E5" = "Alice"
  ∧ resolve_name d "0" "E1" = "Alice"
  ∧ resolve_name d "5" "E1" = "Alice"
  ∧ resolve_name d "0" "E7" = "".
Proof.
  intros d.
  destruct (resolver_fallback d "1" "E5") as (H1 & _).
  destruct (resolver_fallback d "0" "E7") as (_ & _ & _ & H4 & _).
  split; [apply H1; [reflexivity|discriminate]|].
  split; [vm_compute; reflexivity|]. split; [vm_compute; reflexivity|].
  apply H4. split; intros (n & Hn & Hne); vm_compute in Hn; discriminate.
Defined.

(** C8 on a concrete run. *)
Lemma live_capture_cancellation_witness :
  let e := punch (PInt 1) "E1" "2024-05-02 08:00:00" in
  let turns := replicate 5 (None, None)
               ++ [(None, Some e); (Some "q"%char, Some e)]
               ++ [(None, Some e)] in
  let out := live_capture_interactive turns [alice] in
  captured_events out = 1
  ∧ shown out = [["#"; "UID"; "User ID"; "Name"; "Timestamp"; "Status"];
                 ["1"; "1"; "E1"; "Alice"; "2024-05-02 08:00:00"; "Check-In"]].
Proof.
  intros e turns out.
  destruct (live_capture_cancellation [alice] e (Some e) [(None, Some e)] []
              None {| counter := 0; captured_events := 0; shown := [] |})
    as (_ & _ & _ & H). cbn zeta in H. destruct H as (H1 & _ & H3).
  split; [exact H1|]. fold e turns out in H3. rewrite H3.
  vm_compute. reflexivity.
Defined.

(** C9 as stated fails: the label is "Admin" at 14 and "User" just below
    and just above it, so no threshold separates the two labels. *)
Lemma privilege_is_not_a_threshold :
  ur_privilege (normalize_user "" (user_with_privilege 13)) = "User"
  ∧ ur_privilege (normalize_user "" (user_with_privilege 14)) = "Admin"
  ∧ ur_privilege (normalize_user "" (user_with_privilege 15)) = "User"
  ∧ (¬ ∃ t : Z, ∀ p : Z,
         ur_privilege (normalize_user "" (user_with_privilege p)) = "Admin"
         ↔ (t ≤ p)%Z)
  ∧ (¬ ∃ t : Z, ∀ p : Z,
         ur_privilege (normalize_user "" (user_with_privilege p)) = "Admin"
         ↔ (p ≤ t)%Z).
Proof.
  split; [reflexivity|]. split; [reflexivity|]. split; [reflexivity|].
  split; intros [t H].
  - pose proof (proj1 (H 14%Z) eq_refl) as H14.
    pose proof (proj2 (H 15%Z)) as H15.
    assert (t ≤ 15)%Z as Hle by lia. specialize (H15 Hle). discriminate.
  - pose proof (proj1 (H 14%Z) eq_refl) as H14.
    pose proof (proj2 (H 13%Z)) as H13.
    assert (13 ≤ t)%Z as Hle by lia. specialize (H13 Hle). discriminate.
Qed.

(** The labels on sample users. *)
Lemma normalize_user_spec_witness :
  normalize_user "10.0.0.5" nameless
  = {| ur_device_ip := "10.0.0.5"; ur_uid := 5; ur_name := "";
       ur_privilege := "User"; ur_password := ""; ur_group_id := "";
       ur_user_id := "E5"; ur_card := "" |}
  ∧ ur_privilege (normalize_user "10.0.0.5" alice) = "Admin"
  ∧ ur_card (normalize_user "10.0.0.5" alice_renamed) = "12345678"
  ∧ collect_privilege alice = "Admin-14".
Proof.
  destruct (normalize_user_spec "10.0.0.5" alice []) as (H & _).
  split; [reflexivity|]. split; [by apply H|].
  split; vm_compute; reflexivity.
Defined.
